(** * Discord OAuth2 callback endpoint: a shallow embedding

    The repository holds one serverless endpoint in three editions:

    - [src/api/oauth.js]: the endpoint answering in JSON (module [OauthJson]);
    - [src/unnamed/part_000]: the same flow answering with HTML pages
      (module [OauthHtml]), and its [logSecurely] (module [Logging]);
    - [src/unnamed/part_001]: the bare code-for-token exchange
      (module [Exchange]).

    JavaScript strings are held as the sequence of their UTF-8 bytes, which is
    what [URLSearchParams] serialises; splitting at the space character and
    comparing strings give the same answers on that representation.
    Outbound calls made through axios are events of a small free monad, so
    that a run of a handler yields its response and the list of calls made.
    The console output of the handlers is not part of the model;
    [logSecurely] is modelled on its own, as a function of its argument. *)

From Stdlib Require Import List Ascii ZArith NArith Lia Bool.
From Stdlib Require DecimalString.
Import ListNotations.

Local Open Scope list_scope.

(* ================================================================== *)
(** ** Strings *)

Definition str := list ascii.

Inductive str_literal : Set :=
| lit_nil
| lit_cons (c : ascii) (s : str_literal).

Fixpoint literal_of_bytes (l : list Byte.byte) : str_literal :=
  match l with
  | [] => lit_nil
  | b :: l' => lit_cons (ascii_of_byte b) (literal_of_bytes l')
  end.

Fixpoint bytes_of_literal (s : str_literal) : list Byte.byte :=
  match s with
  | lit_nil => []
  | lit_cons c s' => byte_of_ascii c :: bytes_of_literal s'
  end.

Declare Scope str_scope.
Delimit Scope str_scope with str.
Bind Scope str_scope with str.

#[warnings="-via-type-remapping,-via-type-mismatch"] String Notation str
  literal_of_bytes bytes_of_literal
  (via str_literal mapping [[nil] => lit_nil, [cons] => lit_cons]) : str_scope.

Local Open Scope str_scope.

Module JsString.

(** [a === b] on strings. *)
Fixpoint eqb (a b : str) : bool :=
  match a, b with
  | [], [] => true
  | x :: a', y :: b' => Ascii.eqb x y && eqb a' b'
  | _, _ => false
  end.

(** [Boolean(s)]: the empty string is the only falsy string. *)
Definition truthy (s : str) : bool :=
  match s with
  | [] => false
  | _ :: _ => true
  end.

(** [s.split(sep)] for a separator of one character. The result is never
    empty: [''.split(' ')] is [['']]. *)
Fixpoint split (sep : ascii) (s : str) : list str :=
  match s with
  | [] => [[]]
  | c :: s' =>
      if Ascii.eqb c sep then [] :: split sep s'
      else match split sep s' with
           | [] => [[c]]
           | w :: ws => (c :: w) :: ws
           end
  end.

(** [parts.join(sep)]. *)
Fixpoint join (sep : str) (parts : list str) : str :=
  match parts with
  | [] => []
  | p :: rest =>
      match rest with
      | [] => p
      | _ :: _ => p ++ sep ++ join sep rest
      end
  end.

(** [arr.includes(x)] on an array of strings. *)
Definition includes (arr : list str) (x : str) : bool :=
  existsb (eqb x) arr.

(** The white space and line terminators that [trim] removes, as UTF-8:
    TAB LF VT FF CR SP, U+00A0, U+1680, U+2000..U+200A, U+2028, U+2029,
    U+202F, U+205F, U+3000, U+FEFF. [ws_prefix s] is the number of bytes of
    a leading white space character of [s], or 0. *)
Definition ws_prefix (s : str) : nat :=
  match map N_of_ascii s with
  | (9 | 10 | 11 | 12 | 13 | 32)%N :: _ => 1
  | 194%N :: 160%N :: _ => 2
  | 225%N :: 154%N :: 128%N :: _ => 3
  | 226%N :: 128%N :: c :: _ =>
      if ((128 <=? c) && (c <=? 138) || (c =? 168) || (c =? 169)
          || (c =? 175))%N then 3 else 0
  | 226%N :: 129%N :: 159%N :: _ => 3
  | 227%N :: 128%N :: 128%N :: _ => 3
  | 239%N :: 187%N :: 191%N :: _ => 3
  | _ => 0
  end.

(** The same, read from the end of the string ([r] is reversed). *)
Definition ws_suffix (r : str) : nat :=
  match map N_of_ascii r with
  | (9 | 10 | 11 | 12 | 13 | 32)%N :: _ => 1
  | 160%N :: 194%N :: _ => 2
  | 128%N :: 154%N :: 225%N :: _ => 3
  | c :: 128%N :: 226%N :: _ =>
      if ((128 <=? c) && (c <=? 138) || (c =? 168) || (c =? 169)
          || (c =? 175))%N then 3 else 0
  | 159%N :: 129%N :: 226%N :: _ => 3
  | 128%N :: 128%N :: 227%N :: _ => 3
  | 191%N :: 187%N :: 239%N :: _ => 3
  | _ => 0
  end.

(** Drop white space characters from the front for as long as [measure]
    finds one; [fuel] bounds the number of rounds. *)
Fixpoint strip (measure : str -> nat) (fuel : nat) (s : str) : str :=
  match fuel with
  | O => s
  | S fuel' =>
      match measure s with
      | O => s
      | S k => strip measure fuel' (skipn (S k) s)
      end
  end.

Definition trimStart (s : str) : str := strip ws_prefix (length s) s.
Definition trimEnd (s : str) : str :=
  rev (strip ws_suffix (length s) (rev s)).

(** [s.trim()]. *)
Definition trim (s : str) : str := trimEnd (trimStart s).

End JsString.

(* ================================================================== *)
(** ** [URLSearchParams]: the application/x-www-form-urlencoded serialiser *)

Module UrlEncoded.

Definition hex_digit (n : N) : ascii :=
  ascii_of_N (if (n <? 10)%N then 48 + n else 55 + n).

(** Bytes the serialiser leaves alone: [* - . 0-9 A-Z _ a-z]. *)
Definition unreserved (n : N) : bool :=
  ((n =? 42) || (n =? 45) || (n =? 46)
   || ((48 <=? n) && (n <=? 57))
   || ((65 <=? n) && (n <=? 90))
   || (n =? 95)
   || ((97 <=? n) && (n <=? 122)))%N.

Definition encode_byte (c : ascii) : str :=
  let n := N_of_ascii c in
  if (n =? 32)%N then ["+"%char]
  else if unreserved n then [c]
  else ["%"%char; hex_digit (n / 16); hex_digit (n mod 16)].

Definition encode (s : str) : str := flat_map encode_byte s.

(** One pair, written [name=value]. *)
Definition piece (p : str * str) : str :=
  encode (fst p) ++ "=" ++ encode (snd p).

(** [new URLSearchParams(pairs).toString()]. *)
Definition toString (pairs : list (str * str)) : str :=
  JsString.join "&" (map piece pairs).

(** The reading side of the format, as the receiver of the URL applies it:
    split at [&], drop empty pieces, split each piece at its first [=],
    turn [+] into a space and undo the percent escapes. *)
Definition hex_value (c : ascii) : option N :=
  let n := N_of_ascii c in
  if ((48 <=? n) && (n <=? 57))%N then Some (n - 48)%N
  else if ((65 <=? n) && (n <=? 70))%N then Some (n - 55)%N
  else if ((97 <=? n) && (n <=? 102))%N then Some (n - 87)%N
  else None.

Fixpoint percent_decode (s : str) : str :=
  match s with
  | [] => []
  | c :: s' =>
      if Ascii.eqb c "%" then
        match s' with
        | h :: l :: rest =>
            match hex_value h, hex_value l with
            | Some a, Some b => ascii_of_N (16 * a + b) :: percent_decode rest
            | _, _ => c :: percent_decode s'
            end
        | _ => c :: percent_decode s'
        end
      else c :: percent_decode s'
  end.

Definition plus_to_space (c : ascii) : ascii :=
  if Ascii.eqb c "+" then " "%char else c.

Definition decode (s : str) : str := percent_decode (map plus_to_space s).

(** Cut a piece at its first [=]; a piece without [=] has an empty value. *)
Fixpoint cut (s : str) : str * str :=
  match s with
  | [] => ([], [])
  | c :: s' =>
      if Ascii.eqb c "=" then ([], s')
      else let (n, v) := cut s' in (c :: n, v)
  end.

Definition parse (query : str) : list (str * str) :=
  map (fun piece => let (n, v) := cut piece in (decode n, decode v))
    (filter JsString.truthy (JsString.split "&" query)).

(** [params.get(name)]: the value of the first pair with that name. *)
Fixpoint get (name : str) (pairs : list (str * str)) : option str :=
  match pairs with
  | [] => None
  | (n, v) :: rest => if JsString.eqb n name then Some v else get name rest
  end.

(** The query of a URL without fragment: what follows the first [?]. *)
Fixpoint query_of (url : str) : str :=
  match url with
  | [] => []
  | c :: url' => if Ascii.eqb c "?" then url' else query_of url'
  end.

Definition searchParams (url : str) : list (str * str) :=
  parse (query_of url).

(** The bytes an authorize URL is made of: the unreserved ones and
    [% + & = ? : /]. *)
Definition url_byte (c : ascii) : bool :=
  let n := N_of_ascii c in
  unreserved n
  || (n =? 37)%N || (n =? 43)%N || (n =? 38)%N || (n =? 61)%N
  || (n =? 63)%N || (n =? 58)%N || (n =? 47)%N.

(** Those among them that [encode] may write: no bare [&], [=] or [?]. *)
Definition escaped (c : ascii) : bool :=
  url_byte c && negb (Ascii.eqb c "&") && negb (Ascii.eqb c "=")
  && negb (Ascii.eqb c "?").

End UrlEncoded.

(* ================================================================== *)
(** ** Configuration: the constants read from [process.env] *)

(** A variable of the environment is a string or [undefined]. *)
Definition env_value := option str.

(** [Boolean(v)] for such a value: [undefined] and [''] are falsy. *)
Definition env_truthy (v : env_value) : bool :=
  match v with
  | None => false
  | Some s => JsString.truthy s
  end.

(** [a || b] where [b] is a string. *)
Definition env_or (v : env_value) (default : str) : str :=
  match v with
  | Some s => if JsString.truthy s then s else default
  | None => default
  end.

(** What [URLSearchParams] and template literals make of such a value. *)
Definition env_to_string (v : env_value) : str :=
  match v with
  | Some s => s
  | None => "undefined"
  end.

Record config := {
  CLIENT_ID : env_value;
  CLIENT_SECRET : env_value;
  REDIRECT_URI : env_value;
  SUCCESS_REDIRECT_URL : str;
  REQUIRED_SCOPES : str
}.

Definition API_ENDPOINT : str := "https://discord.com/api/v10".

Record process_env := {
  env_CLIENT_ID : env_value;
  env_CLIENT_SECRET : env_value;
  env_REDIRECT_URI : env_value;
  env_SUCCESS_REDIRECT_URL : env_value;
  env_REQUIRED_SCOPES : env_value
}.

(** The module-level constants of [api/oauth.js], lines 6 to 12 (and line 11
    of the HTML edition). *)
Definition load_config (env : process_env) : config :=
  {| CLIENT_ID := env_CLIENT_ID env;
     CLIENT_SECRET := env_CLIENT_SECRET env;
     REDIRECT_URI := env_REDIRECT_URI env;
     SUCCESS_REDIRECT_URL :=
       env_or (env_SUCCESS_REDIRECT_URL env) "https://discord.com/app";
     REQUIRED_SCOPES :=
       JsString.trim
         (env_or (env_REQUIRED_SCOPES env)
            "identify applications.commands gdm.join") |}.

(** [buildAuthorizeUrl()], the same in both editions that have it. *)
Definition buildAuthorizeUrl (cfg : config) : str :=
  let params :=
    [ ("client_id", env_to_string (CLIENT_ID cfg));
      ("redirect_uri", env_to_string (REDIRECT_URI cfg));
      ("response_type", "code");
      ("scope", JsString.join "+" (JsString.split " " (REQUIRED_SCOPES cfg))) ]
  in
  "https://discord.com/oauth2/authorize?" ++ UrlEncoded.toString params.

(* ================================================================== *)
(** ** Values exchanged as JSON *)

(** A parsed JSON document. Numbers are the integral ones: the handlers never
    compute with a number, they copy it or test whether it is zero. An object
    lists its members in insertion order, each key once. *)
#[warnings="-register-all"] Inductive json : Type :=
| JNull
| JBool (b : bool)
| JNum (n : Z)
| JStr (s : str)
| JArr (items : list json)
| JObj (members : list (str * json)).

(** [Boolean(v)]. *)
Definition json_truthy (v : json) : bool :=
  match v with
  | JNull => false
  | JBool b => b
  | JNum n => negb (n =? 0)%Z
  | JStr s => JsString.truthy s
  | JArr _ | JObj _ => true
  end.

Fixpoint lookup (name : str) (members : list (str * json)) : option json :=
  match members with
  | [] => None
  | (k, v) :: rest => if JsString.eqb k name then Some v else lookup name rest
  end.

(** [String(v)] throws on an object that carries a member named [toString]
    (a parsed member is never callable, and [valueOf] gives the object back),
    and on an array holding such an object. *)
Fixpoint to_string_throws (v : json) : bool :=
  match v with
  | JObj members =>
      match lookup "toString" members with
      | Some _ => true
      | None => false
      end
  | JArr items => existsb to_string_throws items
  | _ => false
  end.

(* ================================================================== *)
(** ** Errors, outbound calls and the request *)

Inductive type_error : Type :=
| ReadOfNull (property : str)
| NotAFunction (property : str)
| NotPrimitive.

Inductive js_error : Type :=
| NetworkError (message : str)
| BadStatus (status : Z) (data : json)
| TypeError (what : type_error).

Definition decimal (n : Z) : str :=
  String.list_ascii_of_string (DecimalString.NilZero.string_of_int (Z.to_int n)).

(** [error.message]. The text of a [TypeError] is the engine's, given by
    [wording]; axios words a refused status itself. *)
Definition message (wording : type_error -> str) (e : js_error) : str :=
  match e with
  | NetworkError m => m
  | BadStatus status _ => "Request failed with status code " ++ decimal status
  | TypeError what => wording what
  end.

(** [req.query.code]: absent, a string, or an array when the parameter is
    repeated. *)
Inductive query_value : Type :=
| QAbsent
| QString (s : str)
| QArray (items : list str).

Definition query_truthy (q : query_value) : bool :=
  match q with
  | QAbsent => false
  | QString s => JsString.truthy s
  | QArray _ => true
  end.

(** The object handed to [qs.stringify]. *)
Record token_form := {
  grant_type : str;
  code : query_value;
  redirect_uri : env_value
}.

(** An outbound call: the POST to the token endpoint with its form and its
    basic-auth pair, or the GET with the value interpolated after [Bearer]. *)
Inductive call : Type :=
| Post (url : str) (data : token_form) (username password : env_value)
| Get (url : str) (bearer : option json).

(** What comes back: a response of any status, or no response at all. *)
Inductive http_result : Type :=
| Answer (status : Z) (data : json)
| Failure (message : str).

Inductive io (A : Type) : Type :=
| Ret (a : A)
| Throw (e : js_error)
| Await (c : call) (k : http_result -> io A).

Arguments Ret {A} a.
Arguments Throw {A} e.
Arguments Await {A} c k.

Fixpoint bind {A B : Type} (m : io A) (f : A -> io B) : io B :=
  match m with
  | Ret a => f a
  | Throw e => Throw e
  | Await c k => Await c (fun r => bind (k r) f)
  end.

(** [try { m } catch (e) { h e }]. *)
Fixpoint try_catch {A : Type} (m : io A) (h : js_error -> io A) : io A :=
  match m with
  | Ret a => Ret a
  | Throw e => h e
  | Await c k => Await c (fun r => try_catch (k r) h)
  end.

Declare Scope io_scope.
Delimit Scope io_scope with io.
Notation "x <- m ;; k" := (bind m (fun x => k))
  (at level 61, m at next level, right associativity) : io_scope.
Local Open Scope io_scope.

Record axios_response := {
  resp_status : Z;
  resp_data : json
}.

(** An axios request: it resolves when a response arrives whose status
    [validateStatus] accepts, and rejects otherwise. *)
Definition axios (c : call) (validateStatus : Z -> bool) : io axios_response :=
  Await c (fun r =>
    match r with
    | Answer status data =>
        if validateStatus status
        then Ret {| resp_status := status; resp_data := data |}
        else Throw (BadStatus status data)
    | Failure m => Throw (NetworkError m)
    end).

(** The default of axios: the statuses from 200 to 299. *)
Definition default_validateStatus (status : Z) : bool :=
  ((200 <=? status) && (status <? 300))%Z.

(** [v.name] for a parsed value [v] and a name that no prototype defines. *)
Definition member (v : json) (name : str) : io (option json) :=
  match v with
  | JNull => Throw (TypeError (ReadOfNull name))
  | JObj members => Ret (lookup name members)
  | _ => Ret None
  end.

(** [(v || '')]. *)
Definition or_empty (v : option json) : json :=
  match v with
  | Some x => if json_truthy x then x else JStr ""
  | None => JStr ""
  end.

(** [v.split(' ')]: only a string has the method. *)
Definition call_split (v : json) : io (list str) :=
  match v with
  | JStr s => Ret (JsString.split " " s)
  | _ => Throw (TypeError (NotAFunction "split"))
  end.

(** The template literal [`Bearer ${v}`], kept as the value interpolated. *)
Definition bearer_template (v : option json) : io (option json) :=
  match v with
  | Some x => if to_string_throws x then Throw (TypeError NotPrimitive) else Ret v
  | None => Ret v
  end.

(** ** Responses *)

(** The HTML pages of the second edition, each with the values interpolated
    into its template. *)
Inductive page : Type :=
| ConfigurationErrorPage
| AuthorizationFailedPage (retry : str)
| MissingPermissionsPage (items : str) (retry : str)
| AuthorizationSuccessfulPage (target : str)
| UnexpectedErrorPage (retry : str).

Inductive body : Type :=
| NoBody
| JsonBody (v : json)
| HtmlBody (p : page).

Record response := {
  status : Z;
  location : option str;
  content : body
}.

(** [res.status(n).json(v)]. *)
Definition res_json (n : Z) (v : json) : response :=
  {| status := n; location := None; content := JsonBody v |}.

(** [res.writeHead(n, { Location: url }).end()]. *)
Definition res_redirect (n : Z) (url : str) : response :=
  {| status := n; location := Some url; content := NoBody |}.

(** [res.status(n).send(html)]. *)
Definition res_send (n : Z) (p : page) : response :=
  {| status := n; location := None; content := HtmlBody p |}.

Definition JStrings (l : list str) : json := JArr (map JStr l).

(** ** Running a handler against the outside world *)

Definition world := call -> http_result.

Inductive completion (A : Type) : Type :=
| Returned (a : A)
| Uncaught (e : js_error).

Arguments Returned {A} a.
Arguments Uncaught {A} e.

Fixpoint run {A : Type} (w : world) (m : io A) : completion A * list call :=
  match m with
  | Ret a => (Returned a, [])
  | Throw e => (Uncaught e, [])
  | Await c k => let (r, calls) := run w (k (w c)) in (r, c :: calls)
  end.

(* ================================================================== *)
(** ** [src/api/oauth.js] *)

Module OauthJson.
Section Handler.

Variable cfg : config.
Variable wording : type_error -> str.

Definition handler (code : query_value) : io response :=
  if negb (query_truthy code) then
    if negb (env_truthy (CLIENT_ID cfg))
       || negb (env_truthy (CLIENT_SECRET cfg))
       || negb (env_truthy (REDIRECT_URI cfg))
    then
      Ret (res_json 500 (JObj
        [ ("error", JStr "server_misconfigured");
          ("message", JStr "CLIENT_ID, CLIENT_SECRET and REDIRECT_URI must be set in environment variables.") ]))
    else
      let authUrl := buildAuthorizeUrl cfg in
      Ret (res_redirect 302 authUrl)
  else
    try_catch
      (let data :=
         {| grant_type := "authorization_code";
            code := code;
            redirect_uri := REDIRECT_URI cfg |} in
       tokenResp <-
         axios (Post (API_ENDPOINT ++ "/oauth2/token") data
                  (CLIENT_ID cfg) (CLIENT_SECRET cfg))
               (fun _ => true) ;;
       if negb (resp_status tokenResp =? 200)%Z then
         Ret (res_json 500 (JObj
           [ ("error", JStr "token_exchange_failed");
             ("status", JNum (resp_status tokenResp));
             ("details", resp_data tokenResp);
             ("authorize_url", JStr (buildAuthorizeUrl cfg)) ]))
       else
         let tokenData := resp_data tokenResp in
         scope <- member tokenData "scope" ;;
         parts <- call_split (or_empty scope) ;;
         let grantedScopes := filter JsString.truthy parts in
         let required :=
           filter JsString.truthy
             (JsString.split " " (REQUIRED_SCOPES cfg)) in
         let missing :=
           filter (fun r => negb (JsString.includes grantedScopes r))
             required in
         if (0 <? length missing)%nat then
           Ret (res_json 400 (JObj
             [ ("error", JStr "missing_scopes");
               ("message", JStr "The token does not include required scopes.");
               ("required", JStrings required);
               ("granted", JStrings grantedScopes);
               ("missing", JStrings missing);
               ("authorize_url", JStr (buildAuthorizeUrl cfg)) ]))
         else
           user <-
             try_catch
               (access_token <- member tokenData "access_token" ;;
                bearer <- bearer_template access_token ;;
                userResp <-
                  axios (Get (API_ENDPOINT ++ "/users/@me") bearer)
                        (fun _ => true) ;;
                if (resp_status userResp =? 200)%Z
                then Ret (resp_data userResp)
                else Ret JNull)
               (fun e => Ret JNull) ;;
           Ret (res_json 200 (JObj
             [ ("ok", JBool true);
               ("token", tokenData);
               ("user", user) ])))
      (fun error =>
         Ret (res_json 500 (JObj
           [ ("error", JStr "unexpected_error");
             ("message", JStr (message wording error)) ]))).

End Handler.
End OauthJson.

(* ================================================================== *)
(** ** [src/unnamed/part_000]: the edition answering with pages *)

Module OauthHtml.
Section Handler.

Variable cfg : config.

(** [missing.map(scope => `<li>${scope}</li>`).join('')]. *)
Definition list_items (missing : list str) : str :=
  JsString.join "" (map (fun scope => "<li>" ++ scope ++ "</li>") missing).

Definition handler (code : query_value) : io response :=
  if negb (query_truthy code) then
    if negb (env_truthy (CLIENT_ID cfg))
       || negb (env_truthy (CLIENT_SECRET cfg))
       || negb (env_truthy (REDIRECT_URI cfg))
    then Ret (res_send 500 ConfigurationErrorPage)
    else
      let authUrl := buildAuthorizeUrl cfg in
      Ret (res_redirect 302 authUrl)
  else
    try_catch
      (let data :=
         {| grant_type := "authorization_code";
            code := code;
            redirect_uri := REDIRECT_URI cfg |} in
       tokenResp <-
         axios (Post (API_ENDPOINT ++ "/oauth2/token") data
                  (CLIENT_ID cfg) (CLIENT_SECRET cfg))
               (fun _ => true) ;;
       if negb (resp_status tokenResp =? 200)%Z then
         Ret (res_send 500 (AuthorizationFailedPage (buildAuthorizeUrl cfg)))
       else
         let tokenData := resp_data tokenResp in
         scope <- member tokenData "scope" ;;
         parts <- call_split (or_empty scope) ;;
         let grantedScopes := filter JsString.truthy parts in
         let required :=
           filter JsString.truthy
             (JsString.split " " (REQUIRED_SCOPES cfg)) in
         let missing :=
           filter (fun r => negb (JsString.includes grantedScopes r))
             required in
         if (0 <? length missing)%nat then
           Ret (res_send 400
                  (MissingPermissionsPage (list_items missing)
                     (buildAuthorizeUrl cfg)))
         else
           userInfo <-
             try_catch
               (access_token <- member tokenData "access_token" ;;
                bearer <- bearer_template access_token ;;
                userResp <-
                  axios (Get (API_ENDPOINT ++ "/users/@me") bearer)
                        (fun _ => true) ;;
                if (resp_status userResp =? 200)%Z then
                  let userInfo := resp_data userResp in
                  userId <- member userInfo "id" ;;
                  username <- member userInfo "username" ;;
                  Ret userInfo
                else Ret JNull)
               (fun e => Ret JNull) ;;
           Ret (res_send 200
                  (AuthorizationSuccessfulPage (SUCCESS_REDIRECT_URL cfg))))
      (fun error =>
         Ret (res_send 500 (UnexpectedErrorPage (buildAuthorizeUrl cfg)))).

End Handler.
End OauthHtml.

(* ================================================================== *)
(** ** [src/unnamed/part_001]: the bare exchange *)

Module Exchange.
Section Handler.

Variable cfg : config.

Definition handler (code : query_value) : io response :=
  if negb (query_truthy code) then
    Ret (res_json 400 (JObj [ ("error", JStr "Missing code") ]))
  else
    try_catch
      (let data :=
         {| grant_type := "authorization_code";
            code := code;
            redirect_uri := REDIRECT_URI cfg |} in
       response <-
         axios (Post (API_ENDPOINT ++ "/oauth2/token") data
                  (CLIENT_ID cfg) (CLIENT_SECRET cfg))
               default_validateStatus ;;
       Ret (res_json 200 (resp_data response)))
      (fun error =>
         Ret (res_json 500 (JObj
           [ ("error", JStr "Error exchanging code for token") ]))).

End Handler.
End Exchange.

(* ================================================================== *)
(** ** Vocabulary of the statements *)

(** The POST that both editions of [/api/oauth] and the bare exchange make. *)
Definition token_call (cfg : config) (code : query_value) : call :=
  Post (API_ENDPOINT ++ "/oauth2/token")
    {| grant_type := "authorization_code";
       code := code;
       redirect_uri := REDIRECT_URI cfg |}
    (CLIENT_ID cfg) (CLIENT_SECRET cfg).

(** The guard of line 30:
    [!CLIENT_ID || !CLIENT_SECRET || !REDIRECT_URI]. *)
Definition misconfigured (cfg : config) : bool :=
  negb (env_truthy (CLIENT_ID cfg))
  || negb (env_truthy (CLIENT_SECRET cfg))
  || negb (env_truthy (REDIRECT_URI cfg)).

(** [tokenData.access_token] for a token response that is not [null]. *)
Definition access_token_of (tokenData : json) : option json :=
  match tokenData with
  | JObj members => lookup "access_token" members
  | _ => None
  end.

(** The GET of the identity lookup. *)
Definition identity_call (tokenData : json) : call :=
  Get (API_ENDPOINT ++ "/users/@me") (access_token_of tokenData).

(** The string that [(tokenData.scope || '')] yields, when the token response
    is one on which line 70 does not throw: the response is not [null] and
    its [scope] is a string or is falsy. *)
Definition scope_string (tokenData : json) : option str :=
  match tokenData with
  | JNull => None
  | JObj members =>
      match or_empty (lookup "scope" members) with
      | JStr s => Some s
      | _ => None
      end
  | _ => Some []
  end.

(** [s.split(' ').filter(Boolean)], lines 70 and 73. *)
Definition scope_list (s : str) : list str :=
  filter JsString.truthy (JsString.split " " s).

(** [required.filter(r => !grantedScopes.includes(r))], line 74. *)
Definition missing_scopes (required granted : list str) : list str :=
  filter (fun r => negb (JsString.includes granted r)) required.

(** [l] keeps some of the elements of [r], in the order of [r]. *)
Inductive subsequence {A : Type} : list A -> list A -> Prop :=
| subsequence_nil : subsequence [] []
| subsequence_skip x l r : subsequence l r -> subsequence l (x :: r)
| subsequence_keep x l r : subsequence l r -> subsequence (x :: l) (x :: r).

(** [x] occurs inside [s]. *)
Definition occurs_in (x s : str) : Prop :=
  exists before after, s = before ++ x ++ after.

(** The outcomes of the flow, and the one a response stands for: the status
    together with the [error] member (or the [ok] member) of a JSON body, the
    page of an HTML body, the [Location] of a redirect. *)
Inductive outcome : Type :=
| RedirectToAuthorize
| ConfigurationError
| ExchangeFailed
| ScopesMissing
| Success
| UnexpectedError.

Definition outcome_of (r : response) : option outcome :=
  match content r, location r with
  | NoBody, Some _ =>
      if (status r =? 302)%Z then Some RedirectToAuthorize else None
  | JsonBody (JObj ((key, JStr kind) :: _)), None =>
      if negb (JsString.eqb key "error") then None
      else if (status r =? 400)%Z && JsString.eqb kind "missing_scopes"
      then Some ScopesMissing
      else if negb (status r =? 500)%Z then None
      else if JsString.eqb kind "server_misconfigured"
      then Some ConfigurationError
      else if JsString.eqb kind "token_exchange_failed"
      then Some ExchangeFailed
      else if JsString.eqb kind "unexpected_error"
      then Some UnexpectedError
      else None
  | JsonBody (JObj ((key, JBool true) :: _)), None =>
      if JsString.eqb key "ok" && (status r =? 200)%Z then Some Success
      else None
  | HtmlBody ConfigurationErrorPage, None =>
      if (status r =? 500)%Z then Some ConfigurationError else None
  | HtmlBody (AuthorizationFailedPage _), None =>
      if (status r =? 500)%Z then Some ExchangeFailed else None
  | HtmlBody (MissingPermissionsPage _ _), None =>
      if (status r =? 400)%Z then Some ScopesMissing else None
  | HtmlBody (AuthorizationSuccessfulPage _), None =>
      if (status r =? 200)%Z then Some Success else None
  | HtmlBody (UnexpectedErrorPage _), None =>
      if (status r =? 500)%Z then Some UnexpectedError else None
  | _, _ => None
  end.

(** What must have happened for an outcome to come out, in both editions of
    [/api/oauth]. *)
Definition path_of (cfg : config) (code : query_value) (w : world)
  (o : outcome) : Prop :=
  match o with
  | RedirectToAuthorize =>
      query_truthy code = false /\ misconfigured cfg = false
  | ConfigurationError =>
      query_truthy code = false /\ misconfigured cfg = true
  | ExchangeFailed =>
      query_truthy code = true
      /\ exists upstream details,
           w (token_call cfg code) = Answer upstream details
           /\ upstream <> 200%Z
  | ScopesMissing =>
      query_truthy code = true
      /\ exists tokenData s,
           w (token_call cfg code) = Answer 200 tokenData
           /\ scope_string tokenData = Some s
           /\ missing_scopes (scope_list (REQUIRED_SCOPES cfg)) (scope_list s)
              <> []
  | Success =>
      query_truthy code = true
      /\ exists tokenData s,
           w (token_call cfg code) = Answer 200 tokenData
           /\ scope_string tokenData = Some s
           /\ missing_scopes (scope_list (REQUIRED_SCOPES cfg)) (scope_list s)
              = []
  | UnexpectedError =>
      query_truthy code = true
      /\ ((exists text, w (token_call cfg code) = Failure text)
          \/ (exists tokenData,
                w (token_call cfg code) = Answer 200 tokenData
                /\ scope_string tokenData = None))
  end.

(** The member of a JSON body. *)
Definition body_member (name : str) (r : response) : option json :=
  match content r with
  | JsonBody (JObj members) => lookup name members
  | _ => None
  end.

(** ** The JSON bodies of [src/api/oauth.js], by name *)

Module JsonBodies.

Definition server_misconfigured : response :=
  res_json 500 (JObj
    [ ("error", JStr "server_misconfigured");
      ("message", JStr "CLIENT_ID, CLIENT_SECRET and REDIRECT_URI must be set in environment variables.") ]).

Definition token_exchange_failed (cfg : config) (upstream : Z) (details : json)
  : response :=
  res_json 500 (JObj
    [ ("error", JStr "token_exchange_failed");
      ("status", JNum upstream);
      ("details", details);
      ("authorize_url", JStr (buildAuthorizeUrl cfg)) ]).

Definition missing_scopes_response (cfg : config)
  (required granted missing : list str)
  : response :=
  res_json 400 (JObj
    [ ("error", JStr "missing_scopes");
      ("message", JStr "The token does not include required scopes.");
      ("required", JStrings required);
      ("granted", JStrings granted);
      ("missing", JStrings missing);
      ("authorize_url", JStr (buildAuthorizeUrl cfg)) ]).

Definition ok (token user : json) : response :=
  res_json 200 (JObj
    [ ("ok", JBool true); ("token", token); ("user", user) ]).

Definition unexpected_error (text : str) : response :=
  res_json 500 (JObj
    [ ("error", JStr "unexpected_error"); ("message", JStr text) ]).

End JsonBodies.

(** ** Sample inputs *)

Definition sample_env : process_env :=
  {| env_CLIENT_ID := Some "1234567890";
     env_CLIENT_SECRET := Some "s3cret";
     env_REDIRECT_URI := Some "https://example.com/api/oauth";
     env_SUCCESS_REDIRECT_URL := None;
     env_REQUIRED_SCOPES := None |}.

Definition sample_config : config := load_config sample_env.

(** The same deployment with [REQUIRED_SCOPES] set to [a b c]. *)
Definition abc_config : config :=
  load_config
    {| env_CLIENT_ID := Some "1234567890";
       env_CLIENT_SECRET := Some "s3cret";
       env_REDIRECT_URI := Some "https://example.com/api/oauth";
       env_SUCCESS_REDIRECT_URL := None;
       env_REQUIRED_SCOPES := Some "a b c" |}.

(** A deployment whose [REQUIRED_SCOPES] is a single blank. *)
Definition blank_scopes_config : config :=
  load_config
    {| env_CLIENT_ID := Some "1234567890";
       env_CLIENT_SECRET := Some "s3cret";
       env_REDIRECT_URI := Some "https://example.com/api/oauth";
       env_SUCCESS_REDIRECT_URL := None;
       env_REQUIRED_SCOPES := Some " " |}.

(** A deployment without [CLIENT_SECRET]. *)
Definition no_secret_config : config :=
  load_config
    {| env_CLIENT_ID := Some "1234567890";
       env_CLIENT_SECRET := None;
       env_REDIRECT_URI := Some "https://example.com/api/oauth";
       env_SUCCESS_REDIRECT_URL := None;
       env_REQUIRED_SCOPES := None |}.

(** Deployments with [REQUIRED_SCOPES] set to [a b], to [identify], and to
    the empty string. *)
Definition ab_config : config :=
  load_config
    {| env_CLIENT_ID := Some "1234567890";
       env_CLIENT_SECRET := Some "s3cret";
       env_REDIRECT_URI := Some "https://example.com/api/oauth";
       env_SUCCESS_REDIRECT_URL := None;
       env_REQUIRED_SCOPES := Some "a b" |}.

Definition identify_config : config :=
  load_config
    {| env_CLIENT_ID := Some "1234567890";
       env_CLIENT_SECRET := Some "s3cret";
       env_REDIRECT_URI := Some "https://example.com/api/oauth";
       env_SUCCESS_REDIRECT_URL := None;
       env_REQUIRED_SCOPES := Some "identify" |}.

Definition empty_scopes_config : config :=
  load_config
    {| env_CLIENT_ID := Some "1234567890";
       env_CLIENT_SECRET := Some "s3cret";
       env_REDIRECT_URI := Some "https://example.com/api/oauth";
       env_SUCCESS_REDIRECT_URL := None;
       env_REQUIRED_SCOPES := Some [] |}.

(** One wording for the three type errors. *)
Definition sample_wording (e : type_error) : str :=
  match e with
  | ReadOfNull property =>
      "Cannot read properties of null (reading '" ++ property ++ "')"
  | NotAFunction property => "(intermediate value)." ++ property ++ " is not a function"
  | NotPrimitive => "Cannot convert object to primitive value"
  end.

Definition token_of (scope : str) : json :=
  JObj [ ("access_token", JStr "tok");
         ("token_type", JStr "Bearer");
         ("expires_in", JNum 604800);
         ("scope", JStr scope) ].

Definition sample_user : json :=
  JObj [ ("id", JStr "42"); ("username", JStr "koma") ].

(** A provider answering the exchange with [token] and the identity lookup
    with [identity]. *)
Definition provider (token identity : http_result) : world :=
  fun c =>
    match c with
    | Post _ _ _ _ => token
    | Get _ _ => identity
    end.

(* ================================================================== *)
(** ** [logSecurely], lines 27 to 44 of the edition answering with pages *)

Module Logging.

(** A property value: a parsed value, or [undefined]. *)
Definition js_value := option json.

(** The object literal handed to [logSecurely]. Values are trees: two
    members never share one object. *)
Definition js_object := list (str * js_value).

Definition value_truthy (v : js_value) : bool :=
  match v with
  | Some x => json_truthy x
  | None => false
  end.

(** [obj.key]: [undefined] when the object has no such member. *)
Fixpoint get (key : str) (obj : js_object) : js_value :=
  match obj with
  | [] => None
  | (k, v) :: rest => if JsString.eqb k key then v else get key rest
  end.

(** [obj.key = v]: the member keeps its place, a new one goes last. *)
Fixpoint assign {V : Type} (key : str) (v : V) (obj : list (str * V))
  : list (str * V) :=
  match obj with
  | [] => [(key, v)]
  | (k, x) :: rest =>
      if JsString.eqb k key then (k, v) :: rest
      else (k, x) :: assign key v rest
  end.

(** The members that [{ ...v }] copies from an array: its items under their
    indices. *)
Definition indexed (items : list json) : list (str * json) :=
  combine (map (fun i => decimal (Z.of_nat i)) (seq 0 (length items))) items.

Definition REDACTED : json := JStr "[REDACTED]".

Section LogSecurely.

(** The members that a spread copies from a string: its characters under
    their indices. *)
Variable string_entries : str -> list (str * json).

(** [{ ...v }] for a truthy [v]. *)
Definition spread (v : json) : list (str * json) :=
  match v with
  | JObj members => members
  | JArr items => indexed items
  | JStr s => string_entries s
  | _ => []
  end.

(** The steps of lines 32 to 40 on [safeData], the copy of [data]. *)
Definition redact_access_token (safeData : js_object) : js_object :=
  if value_truthy (get "access_token" safeData)
  then assign "access_token" (Some REDACTED) safeData
  else safeData.

Definition redact_refresh_token (safeData : js_object) : js_object :=
  if value_truthy (get "refresh_token" safeData)
  then assign "refresh_token" (Some REDACTED) safeData
  else safeData.

Definition redact_token (safeData : js_object) : js_object :=
  match get "token" safeData with
  | Some token =>
      if json_truthy token then
        assign "token"
          (Some (JObj
             (assign "refresh_token" REDACTED
                (assign "access_token" REDACTED (spread token)))))
          safeData
      else safeData
  | None => safeData
  end.

Record logged := {
  console : str * js_object;
  caller_data : js_object
}.

(** [logSecurely(message, data)]: what [console.log] receives, and the
    caller's object afterwards. The copy of line 29 is shallow, so
    [safeData.user] is the caller's own object and the write of line 41
    shows in both. *)
Definition logSecurely (message : str) (data : js_object) : logged :=
  let safeData := data in
  let safeData := redact_access_token safeData in
  let safeData := redact_refresh_token safeData in
  let safeData := redact_token safeData in
  match get "user" safeData with
  | Some (JObj user) =>
      if value_truthy (lookup "email" user) then
        let user' := Some (JObj (assign "email" REDACTED user)) in
        {| console := (message, assign "user" user' safeData);
           caller_data := assign "user" user' data |}
      else {| console := (message, safeData); caller_data := data |}
  | _ => {| console := (message, safeData); caller_data := data |}
  end.

End LogSecurely.
End Logging.

(** ** Further sample inputs *)

(** The indexed characters of a string of ASCII characters. *)
Definition ascii_entries (s : str) : list (str * json) :=
  Logging.indexed (map (fun c => JStr [c]) s).

(** What line 98 hands to [logSecurely] after a refused exchange. *)
Definition refusal_log : Logging.js_object :=
  [ ("status", Some (JNum 401));
    ("error", Some (JStr "invalid_client"));
    ("error_description", None) ].

(** An object that holds secrets. *)
Definition secret_log : Logging.js_object :=
  [ ("access_token", Some (JStr "tok"));
    ("token", Some (token_of "identify"));
    ("user", Some (JObj [ ("id", JStr "42");
                          ("email", JStr "koma@example.com") ])) ].

(** The string of required scopes as the authorize URL carries it. *)
Definition plus_for_space (s : str) : str :=
  map (fun c => if Ascii.eqb c " " then "+"%char else c) s.

(** The access token of a token response can be written after [Bearer]. *)
Definition bearer_writable (tokenData : json) : bool :=
  match access_token_of tokenData with
  | Some token => negb (to_string_throws token)
  | None => true
  end.

(* ================================================================== *)
(** * Properties *)

(** ** Strings *)

Module JsStringFacts.
Import JsString.

Lemma eqb_eq (a b : str) : eqb a b = true <-> a = b.
Proof.
  revert b; induction a as [|x a IH]; intros [|y b]; simpl;
    try (split; [discriminate | congruence]).
  - split; reflexivity.
  - rewrite andb_true_iff, Ascii.eqb_eq, IH.
    split; [intros [-> ->]; reflexivity | intros H; inversion H; auto].
Qed.

Lemma eqb_refl (a : str) : eqb a a = true.
Proof. apply eqb_eq; reflexivity. Qed.

Lemma includes_In (arr : list str) (x : str) :
  includes arr x = true <-> In x arr.
Proof.
  unfold includes. rewrite existsb_exists. split.
  - intros (y & Hy & E). apply eqb_eq in E. subst. exact Hy.
  - intros H. exists x. split; [exact H | apply eqb_refl].
Qed.

Lemma includes_false (arr : list str) (x : str) :
  includes arr x = false <-> ~ In x arr.
Proof.
  rewrite <- includes_In. destruct (includes arr x); split; congruence.
Qed.

Lemma truthy_true (s : str) : truthy s = true <-> s <> [].
Proof. destruct s; simpl; split; congruence. Qed.

Lemma split_not_nil (sep : ascii) (s : str) : split sep s <> [].
Proof.
  induction s as [|c s IH]; simpl; [discriminate|].
  destruct (Ascii.eqb c sep); [discriminate|].
  destruct (split sep s); discriminate.
Qed.

(** A string without the separator is its own single piece. *)
Lemma split_clean (sep : ascii) (s : str) :
  ~ In sep s -> split sep s = [s].
Proof.
  induction s as [|c s IH]; simpl; intros H; [reflexivity|].
  destruct (Ascii.eqb_spec c sep) as [->|_]; [tauto|].
  rewrite IH by tauto. reflexivity.
Qed.

(** Splitting stops at the first separator. *)
Lemma split_app (sep : ascii) (a b : str) :
  ~ In sep a -> split sep (a ++ sep :: b) = a :: split sep b.
Proof.
  induction a as [|c a IH]; simpl; intros H.
  - rewrite Ascii.eqb_refl. reflexivity.
  - destruct (Ascii.eqb_spec c sep) as [->|_]; [tauto|].
    rewrite IH by tauto. reflexivity.
Qed.

(** No piece holds the separator. *)
Lemma split_pieces (sep : ascii) (s p : str) :
  In p (split sep s) -> ~ In sep p.
Proof.
  revert p; induction s as [|c s IH]; simpl; intros p.
  - intros [<-|[]] [].
  - destruct (Ascii.eqb_spec c sep) as [->|Hc].
    + intros [<-|H]; [intros []|auto].
    + pose proof (split_not_nil sep s) as Hn.
      destruct (split sep s) as [|w ws]; [congruence|].
      intros [<-|H].
      * intros [E|E]; [congruence|]. apply (IH w); [left; reflexivity|exact E].
      * apply IH. right. exact H.
Qed.

(** Joining the pieces with the separator gives the string back. *)
Lemma join_split (sep : ascii) (s : str) : join [sep] (split sep s) = s.
Proof.
  induction s as [|c s IH]; simpl; [reflexivity|].
  pose proof (split_not_nil sep s) as Hn.
  destruct (Ascii.eqb_spec c sep) as [->|Hc].
  - destruct (split sep s) as [|w ws]; [congruence|].
    simpl in *. rewrite IH. reflexivity.
  - destruct (split sep s) as [|w ws]; [congruence|].
    simpl in *. destruct ws; simpl in *; rewrite <- IH; reflexivity.
Qed.

(** Joining the pieces with another character replaces the separator. *)
Lemma join_split_replace (sep glue : ascii) (s : str) :
  join [glue] (split sep s)
  = map (fun c => if Ascii.eqb c sep then glue else c) s.
Proof.
  induction s as [|c s IH]; simpl; [reflexivity|].
  pose proof (split_not_nil sep s) as Hn.
  destruct (Ascii.eqb_spec c sep) as [->|Hc].
  - destruct (split sep s) as [|w ws]; [congruence|].
    simpl in *. rewrite IH. reflexivity.
  - destruct (split sep s) as [|w ws]; [congruence|].
    simpl in *. destruct ws; simpl in *; rewrite <- IH; reflexivity.
Qed.

(** Every part occurs in the joined string. *)
Lemma join_occurs (sep : str) (parts : list str) (x : str) :
  In x parts -> occurs_in x (join sep parts).
Proof.
  induction parts as [|p rest IH]; simpl; [intros []|].
  intros [->|H].
  - destruct rest.
    + exists [], []. rewrite app_nil_r. reflexivity.
    + exists [], (sep ++ join sep (s :: rest)). reflexivity.
  - destruct rest as [|q rest]; [destruct H|].
    destruct (IH H) as (before & after & E).
    exists (p ++ sep ++ before), after.
    rewrite E. rewrite <- !app_assoc. reflexivity.
Qed.

End JsStringFacts.

(** ** The urlencoded format: what is written can be read back *)

Module UrlEncodedFacts.
Import UrlEncoded.

Ltac each_byte c := destruct c as [[] [] [] [] [] [] [] []].

Lemma encode_byte_escaped (c : ascii) :
  forallb escaped (encode_byte c) = true.
Proof. each_byte c; reflexivity. Qed.

Lemma encode_escaped (s : str) : forallb escaped (encode s) = true.
Proof.
  induction s as [|c s IH]; simpl; [reflexivity|].
  rewrite forallb_app, encode_byte_escaped, IH. reflexivity.
Qed.

Lemma escaped_not_in (sep : ascii) (s : str) :
  escaped sep = false -> forallb escaped s = true -> ~ In sep s.
Proof.
  intros Hsep Hs Hin. rewrite forallb_forall in Hs.
  apply Hs in Hin. congruence.
Qed.

Lemma decode_encode_byte (c : ascii) (rest : str) :
  decode (encode_byte c ++ rest) = c :: decode rest.
Proof. unfold decode. each_byte c; reflexivity. Qed.

Lemma decode_encode (s : str) : decode (encode s) = s.
Proof.
  induction s as [|c s IH]; simpl; [reflexivity|].
  rewrite decode_encode_byte. fold (encode s). rewrite IH. reflexivity.
Qed.

Lemma cut_app (name value : str) :
  ~ In "="%char name -> cut (name ++ "="%char :: value) = (name, value).
Proof.
  induction name as [|c name IH]; simpl; intros H; [reflexivity|].
  destruct (Ascii.eqb_spec c "=") as [->|_]; [tauto|].
  rewrite IH by tauto. reflexivity.
Qed.

Lemma piece_escaped (p : str * str) : ~ In "&"%char (piece p).
Proof.
  unfold piece. intros H. apply in_app_or in H as [H|H].
  - revert H. apply escaped_not_in; [reflexivity | apply encode_escaped].
  - destruct H as [H|H]; [discriminate|].
    revert H. apply escaped_not_in; [reflexivity | apply encode_escaped].
Qed.

Lemma read_piece (p : str * str) :
  (let (n, v) := cut (piece p) in (decode n, decode v)) = p.
Proof.
  unfold piece.
  change (encode (fst p) ++ "=" ++ encode (snd p))
    with (encode (fst p) ++ "="%char :: encode (snd p)).
  rewrite cut_app.
  - rewrite !decode_encode. destruct p; reflexivity.
  - apply escaped_not_in; [reflexivity | apply encode_escaped].
Qed.

(** Parsing the serialisation of a list of pairs gives the list back. *)
Lemma parse_toString (pairs : list (str * str)) :
  parse (toString pairs) = pairs.
Proof.
  unfold parse, toString.
  induction pairs as [|p rest IH]; [reflexivity|].
  assert (Hp : JsString.truthy (piece p) = true).
  { unfold piece. destruct (encode (fst p)); reflexivity. }
  destruct rest as [|q rest].
  - simpl. rewrite JsStringFacts.split_clean by apply piece_escaped.
    simpl. rewrite Hp. simpl. rewrite read_piece. reflexivity.
  - change (JsString.join "&" (map piece (p :: q :: rest)))
      with (piece p ++ "&"%char :: JsString.join "&" (map piece (q :: rest))).
    rewrite JsStringFacts.split_app by apply piece_escaped.
    simpl filter. rewrite Hp. simpl map at 1.
    rewrite read_piece. f_equal. exact IH.
Qed.

(** So the parameters of the authorize URL are those the builder gave. *)
Lemma searchParams_buildAuthorizeUrl (cfg : config) :
  searchParams (buildAuthorizeUrl cfg)
  = [ ("client_id", env_to_string (CLIENT_ID cfg));
      ("redirect_uri", env_to_string (REDIRECT_URI cfg));
      ("response_type", "code");
      ("scope",
       JsString.join "+" (JsString.split " " (REQUIRED_SCOPES cfg))) ].
Proof.
  unfold searchParams, buildAuthorizeUrl.
  cbv zeta. simpl query_of. apply parse_toString.
Qed.

Lemma toString_url_bytes (pairs : list (str * str)) :
  forallb url_byte (toString pairs) = true.
Proof.
  assert (E : forall s, forallb escaped s = true -> forallb url_byte s = true).
  { intros s H. rewrite forallb_forall in *. intros c Hc.
    specialize (H c Hc). unfold escaped in H.
    rewrite !andb_true_iff in H. tauto. }
  unfold toString.
  induction pairs as [|p rest IH]; [reflexivity|].
  assert (Hp : forallb url_byte (piece p) = true).
  { unfold piece. rewrite forallb_app, (E _ (encode_escaped _)). simpl.
    apply E, encode_escaped. }
  destruct rest as [|q rest]; [exact Hp|].
  change (forallb url_byte
            (piece p ++ "&"%char :: JsString.join "&" (map piece (q :: rest)))
          = true).
  rewrite forallb_app, Hp. simpl. exact IH.
Qed.

End UrlEncodedFacts.

(** ** The runs of the handlers, branch by branch *)

(** [missing.length > 0]. *)
Lemma missing_test (l : list str) :
  (0 <? length l)%nat = negb (match l with [] => true | _ => false end).
Proof. destruct l; reflexivity. Qed.

Lemma scope_string_member (d : json) (s : str) :
  scope_string d = Some s ->
  exists scope,
    member d "scope" = Ret scope
    /\ call_split (or_empty scope) = Ret (JsString.split " " s)
    /\ member d "access_token" = Ret (access_token_of d).
Proof.
  destruct d as [| b | n | t | items | members]; simpl; try discriminate;
    try (intros [= <-]; exists None; repeat split; reflexivity).
  intros H. exists (lookup "scope" members).
  destruct (or_empty (lookup "scope" members)); try discriminate.
  injection H as ->. repeat split; reflexivity.
Qed.

Module JsonRuns.
Section Runs.
Import JsonBodies.

Variable cfg : config.
Variable wording : type_error -> str.
Variable code : query_value.
Variable w : world.

Local Abbreviation handler := (OauthJson.handler cfg wording code).
Local Abbreviation required := (scope_list (REQUIRED_SCOPES cfg)).

Ltac enter Hc Hw :=
  unfold OauthJson.handler; rewrite Hc; cbn [negb];
  unfold axios; cbn [bind try_catch run];
  fold (token_call cfg code); rewrite Hw;
  cbn [bind try_catch run resp_status resp_data].

Lemma json_no_code :
  query_truthy code = false ->
  run w handler
  = (Returned
       (if misconfigured cfg
        then server_misconfigured
        else res_redirect 302 (buildAuthorizeUrl cfg)),
     []).
Proof.
  intros Hc. unfold OauthJson.handler. rewrite Hc. cbn [negb].
  fold (misconfigured cfg). destruct (misconfigured cfg); reflexivity.
Qed.

Lemma json_transport_failure (text : str) :
  query_truthy code = true ->
  w (token_call cfg code) = Failure text ->
  run w handler = (Returned (unexpected_error text), [token_call cfg code]).
Proof. intros Hc Hw. enter Hc Hw. reflexivity. Qed.

Lemma json_refused (upstream : Z) (details : json) :
  query_truthy code = true ->
  w (token_call cfg code) = Answer upstream details ->
  upstream <> 200%Z ->
  run w handler
  = (Returned (token_exchange_failed cfg upstream details),
     [token_call cfg code]).
Proof.
  intros Hc Hw Hst. enter Hc Hw.
  destruct (Z.eqb_spec upstream 200) as [|_]; [contradiction|].
  reflexivity.
Qed.

Lemma json_unreadable_scope (tokenData : json) :
  query_truthy code = true ->
  w (token_call cfg code) = Answer 200 tokenData ->
  scope_string tokenData = None ->
  exists e,
    run w handler
    = (Returned (unexpected_error (wording e)), [token_call cfg code]).
Proof.
  intros Hc Hw Hs. enter Hc Hw. cbn [Z.eqb Pos.eqb negb].
  destruct tokenData as [| b | n | t | items | members];
    simpl in Hs; try discriminate.
  - eexists. reflexivity.
  - cbn [member bind].
    destruct (or_empty (lookup "scope" members));
      try discriminate; eexists; reflexivity.
Qed.

Lemma json_scopes_missing (tokenData : json) (s : str) :
  query_truthy code = true ->
  w (token_call cfg code) = Answer 200 tokenData ->
  scope_string tokenData = Some s ->
  missing_scopes required (scope_list s) <> [] ->
  run w handler
  = (Returned
       (missing_scopes_response cfg required (scope_list s)
          (missing_scopes required (scope_list s))),
     [token_call cfg code]).
Proof.
  intros Hc Hw Hs Hm. enter Hc Hw. cbn [Z.eqb Pos.eqb negb].
  destruct (scope_string_member _ _ Hs) as (scope & -> & Hsplit & _).
  cbn [bind]. rewrite Hsplit. cbn [bind].
  fold (scope_list s). fold (scope_list (REQUIRED_SCOPES cfg)).
  fold (missing_scopes required (scope_list s)).
  rewrite missing_test.
  destruct (missing_scopes required (scope_list s)); [congruence|].
  reflexivity.
Qed.

Lemma json_scopes_granted (tokenData : json) (s : str) :
  query_truthy code = true ->
  w (token_call cfg code) = Answer 200 tokenData ->
  scope_string tokenData = Some s ->
  missing_scopes required (scope_list s) = [] ->
  exists user calls,
    run w handler
    = (Returned (ok tokenData user), token_call cfg code :: calls)
    /\ (user = JNull \/ w (identity_call tokenData) = Answer 200 user).
Proof.
  intros Hc Hw Hs Hm. enter Hc Hw. cbn [Z.eqb Pos.eqb negb].
  destruct (scope_string_member _ _ Hs) as (scope & -> & Hsplit & ->).
  cbn [bind]. rewrite Hsplit. cbn [bind].
  fold (scope_list s). fold (scope_list (REQUIRED_SCOPES cfg)).
  fold (missing_scopes required (scope_list s)).
  rewrite Hm. cbn [length Nat.ltb Nat.leb].
  unfold bearer_template.
  destruct (access_token_of tokenData) as [token|] eqn:Ht.
  - destruct (to_string_throws token).
    + exists JNull, []. split; [reflexivity | left; reflexivity].
    + cbn [bind try_catch run].
      fold (identity_call tokenData) in *.
      unfold identity_call. rewrite Ht.
      destruct (w (Get (API_ENDPOINT ++ "/users/@me") (Some token)))
        as [st user | text] eqn:Hu; cbn [bind try_catch run resp_status resp_data].
      * destruct (Z.eqb_spec st 200) as [->|_].
        -- exists user, [Get (API_ENDPOINT ++ "/users/@me") (Some token)].
           split; [reflexivity | right; reflexivity].
        -- exists JNull, [Get (API_ENDPOINT ++ "/users/@me") (Some token)].
           split; [reflexivity | left; reflexivity].
      * exists JNull, [Get (API_ENDPOINT ++ "/users/@me") (Some token)].
        split; [reflexivity | left; reflexivity].
  - cbn [bind try_catch run].
    unfold identity_call. rewrite Ht.
    destruct (w (Get (API_ENDPOINT ++ "/users/@me") None))
      as [st user | text] eqn:Hu; cbn [bind try_catch run resp_status resp_data].
    + destruct (Z.eqb_spec st 200) as [->|_].
      * exists user, [Get (API_ENDPOINT ++ "/users/@me") None].
        split; [reflexivity | right; reflexivity].
      * exists JNull, [Get (API_ENDPOINT ++ "/users/@me") None].
        split; [reflexivity | left; reflexivity].
    + exists JNull, [Get (API_ENDPOINT ++ "/users/@me") None].
      split; [reflexivity | left; reflexivity].
Qed.

End Runs.
End JsonRuns.

Module HtmlRuns.
Section Runs.

Variable cfg : config.
Variable code : query_value.
Variable w : world.

Local Abbreviation handler := (OauthHtml.handler cfg code).
Local Abbreviation required := (scope_list (REQUIRED_SCOPES cfg)).

Ltac enter Hc Hw :=
  unfold OauthHtml.handler; rewrite Hc; cbn [negb];
  unfold axios; cbn [bind try_catch run];
  fold (token_call cfg code); rewrite Hw;
  cbn [bind try_catch run resp_status resp_data].

Lemma html_no_code :
  query_truthy code = false ->
  run w handler
  = (Returned
       (if misconfigured cfg
        then res_send 500 ConfigurationErrorPage
        else res_redirect 302 (buildAuthorizeUrl cfg)),
     []).
Proof.
  intros Hc. unfold OauthHtml.handler. rewrite Hc. cbn [negb].
  fold (misconfigured cfg). destruct (misconfigured cfg); reflexivity.
Qed.

Lemma html_transport_failure (text : str) :
  query_truthy code = true ->
  w (token_call cfg code) = Failure text ->
  run w handler
  = (Returned (res_send 500 (UnexpectedErrorPage (buildAuthorizeUrl cfg))),
     [token_call cfg code]).
Proof. intros Hc Hw. enter Hc Hw. reflexivity. Qed.

Lemma html_refused (upstream : Z) (details : json) :
  query_truthy code = true ->
  w (token_call cfg code) = Answer upstream details ->
  upstream <> 200%Z ->
  run w handler
  = (Returned
       (res_send 500 (AuthorizationFailedPage (buildAuthorizeUrl cfg))),
     [token_call cfg code]).
Proof.
  intros Hc Hw Hst. enter Hc Hw.
  destruct (Z.eqb_spec upstream 200) as [|_]; [contradiction|].
  reflexivity.
Qed.

Lemma html_unreadable_scope (tokenData : json) :
  query_truthy code = true ->
  w (token_call cfg code) = Answer 200 tokenData ->
  scope_string tokenData = None ->
  run w handler
  = (Returned (res_send 500 (UnexpectedErrorPage (buildAuthorizeUrl cfg))),
     [token_call cfg code]).
Proof.
  intros Hc Hw Hs. enter Hc Hw. cbn [Z.eqb Pos.eqb negb].
  destruct tokenData as [| b | n | t | items | members];
    simpl in Hs; try discriminate.
  - reflexivity.
  - cbn [member bind].
    destruct (or_empty (lookup "scope" members));
      try discriminate; reflexivity.
Qed.

Lemma html_scopes_missing (tokenData : json) (s : str) :
  query_truthy code = true ->
  w (token_call cfg code) = Answer 200 tokenData ->
  scope_string tokenData = Some s ->
  missing_scopes required (scope_list s) <> [] ->
  run w handler
  = (Returned
       (res_send 400
          (MissingPermissionsPage
             (OauthHtml.list_items (missing_scopes required (scope_list s)))
             (buildAuthorizeUrl cfg))),
     [token_call cfg code]).
Proof.
  intros Hc Hw Hs Hm. enter Hc Hw. cbn [Z.eqb Pos.eqb negb].
  destruct (scope_string_member _ _ Hs) as (scope & -> & Hsplit & _).
  cbn [bind]. rewrite Hsplit. cbn [bind].
  fold (scope_list s). fold (scope_list (REQUIRED_SCOPES cfg)).
  fold (missing_scopes required (scope_list s)).
  rewrite missing_test.
  destruct (missing_scopes required (scope_list s)); [congruence|].
  reflexivity.
Qed.

Lemma html_scopes_granted (tokenData : json) (s : str) :
  query_truthy code = true ->
  w (token_call cfg code) = Answer 200 tokenData ->
  scope_string tokenData = Some s ->
  missing_scopes required (scope_list s) = [] ->
  exists calls,
    run w handler
    = (Returned
         (res_send 200
            (AuthorizationSuccessfulPage (SUCCESS_REDIRECT_URL cfg))),
       token_call cfg code :: calls).
Proof.
  intros Hc Hw Hs Hm. enter Hc Hw. cbn [Z.eqb Pos.eqb negb].
  destruct (scope_string_member _ _ Hs) as (scope & -> & Hsplit & ->).
  cbn [bind]. rewrite Hsplit. cbn [bind].
  fold (scope_list s). fold (scope_list (REQUIRED_SCOPES cfg)).
  fold (missing_scopes required (scope_list s)).
  rewrite Hm. cbn [length Nat.ltb Nat.leb].
  unfold bearer_template.
  assert (Hget : forall bearer, exists calls,
    run w
      (try_catch
         (userInfo <-
            try_catch
              (bearer' <- Ret bearer ;;
               userResp <-
                 Await (Get (API_ENDPOINT ++ "/users/@me") bearer')
                   (fun r =>
                      match r with
                      | Answer status data =>
                          Ret {| resp_status := status; resp_data := data |}
                      | Failure m => Throw (NetworkError m)
                      end) ;;
               if (resp_status userResp =? 200)%Z then
                 let userInfo := resp_data userResp in
                 userId <- member userInfo "id" ;;
                 username <- member userInfo "username" ;;
                 Ret userInfo
               else Ret JNull)
              (fun _ => Ret JNull) ;;
          Ret (res_send 200
                 (AuthorizationSuccessfulPage (SUCCESS_REDIRECT_URL cfg))))
         (fun _ =>
            Ret (res_send 500 (UnexpectedErrorPage (buildAuthorizeUrl cfg)))))
    = (Returned
         (res_send 200
            (AuthorizationSuccessfulPage (SUCCESS_REDIRECT_URL cfg))),
       calls)).
  { intros bearer. cbn [bind try_catch run].
    destruct (w (Get (API_ENDPOINT ++ "/users/@me") bearer))
      as [st user | text]; cbn [bind try_catch run resp_status resp_data].
    - destruct (st =? 200)%Z; [|eexists; reflexivity].
      destruct user; eexists; reflexivity.
    - eexists; reflexivity. }
  destruct (access_token_of tokenData) as [token|].
  - destruct (to_string_throws token).
    + exists []. reflexivity.
    + destruct (Hget (Some token)) as (calls & E).
      exists calls. cbn [bind] in E. cbn [bind]. rewrite E. reflexivity.
  - destruct (Hget None) as (calls & E).
    exists calls. cbn [bind] in E. cbn [bind]. rewrite E. reflexivity.
Qed.

End Runs.
End HtmlRuns.

(** ** The flow as a whole: every run answers, and the answer tells the path *)

Lemma missing_scopes_nil_dec (required granted : list str) :
  {missing_scopes required granted = []}
  + {missing_scopes required granted <> []}.
Proof. destruct (missing_scopes required granted); [left|right]; congruence. Qed.

Lemma json_flow (cfg : config) (wording : type_error -> str)
  (code : query_value) (w : world) :
  exists r calls o,
    run w (OauthJson.handler cfg wording code) = (Returned r, calls)
    /\ outcome_of r = Some o
    /\ path_of cfg code w o
    /\ (query_truthy code = true ->
        exists rest, calls = token_call cfg code :: rest).
Proof.
  destruct (query_truthy code) eqn:Hc.
  - destruct (w (token_call cfg code)) as [st d | text] eqn:Hw.
    + destruct (Z.eq_dec st 200) as [->|Hst].
      * destruct (scope_string d) as [s|] eqn:Hs.
        -- destruct (missing_scopes_nil_dec
                       (scope_list (REQUIRED_SCOPES cfg)) (scope_list s))
             as [Hm|Hm].
           ++ destruct (JsonRuns.json_scopes_granted cfg wording code w d s
                          Hc Hw Hs Hm) as (user & rest & E & _).
              exists (JsonBodies.ok d user), (token_call cfg code :: rest), Success.
              repeat split; eauto.
           ++ eexists _, _, ScopesMissing.
              rewrite (JsonRuns.json_scopes_missing cfg wording code w d s
                         Hc Hw Hs Hm).
              repeat split; eauto.
        -- destruct (JsonRuns.json_unreadable_scope cfg wording code w d
                       Hc Hw Hs) as (e & E).
           eexists _, _, UnexpectedError. rewrite E.
           repeat split; eauto.
      * eexists _, _, ExchangeFailed.
        rewrite (JsonRuns.json_refused cfg wording code w st d Hc Hw Hst).
        repeat split; eauto.
    + eexists _, _, UnexpectedError.
      rewrite (JsonRuns.json_transport_failure cfg wording code w text Hc Hw).
      repeat split; eauto.
  - rewrite (JsonRuns.json_no_code cfg wording code w Hc).
    destruct (misconfigured cfg) eqn:Hm.
    + eexists _, _, ConfigurationError. repeat split; eauto; discriminate.
    + eexists _, _, RedirectToAuthorize. repeat split; eauto; discriminate.
Qed.

Lemma html_flow (cfg : config) (code : query_value) (w : world) :
  exists r calls o,
    run w (OauthHtml.handler cfg code) = (Returned r, calls)
    /\ outcome_of r = Some o
    /\ path_of cfg code w o
    /\ (query_truthy code = true ->
        exists rest, calls = token_call cfg code :: rest).
Proof.
  destruct (query_truthy code) eqn:Hc.
  - destruct (w (token_call cfg code)) as [st d | text] eqn:Hw.
    + destruct (Z.eq_dec st 200) as [->|Hst].
      * destruct (scope_string d) as [s|] eqn:Hs.
        -- destruct (missing_scopes_nil_dec
                       (scope_list (REQUIRED_SCOPES cfg)) (scope_list s))
             as [Hm|Hm].
           ++ destruct (HtmlRuns.html_scopes_granted cfg code w d s Hc Hw Hs Hm)
                as (rest & E).
              eexists _, _, Success. rewrite E. repeat split; eauto.
           ++ eexists _, _, ScopesMissing.
              rewrite (HtmlRuns.html_scopes_missing cfg code w d s Hc Hw Hs Hm).
              repeat split; eauto.
        -- eexists _, _, UnexpectedError.
           rewrite (HtmlRuns.html_unreadable_scope cfg code w d Hc Hw Hs).
           repeat split; eauto.
      * eexists _, _, ExchangeFailed.
        rewrite (HtmlRuns.html_refused cfg code w st d Hc Hw Hst).
        repeat split; eauto.
    + eexists _, _, UnexpectedError.
      rewrite (HtmlRuns.html_transport_failure cfg code w text Hc Hw).
      repeat split; eauto.
  - rewrite (HtmlRuns.html_no_code cfg code w Hc).
    destruct (misconfigured cfg) eqn:Hm.
    + eexists _, _, ConfigurationError. repeat split; eauto; discriminate.
    + eexists _, _, RedirectToAuthorize. repeat split; eauto; discriminate.
Qed.

(** ** Scope validation *)

Lemma missing_scopes_spec (required granted : list str) (x : str) :
  In x (missing_scopes required granted)
  <-> In x required /\ ~ In x granted.
Proof.
  unfold missing_scopes. rewrite filter_In, negb_true_iff.
  rewrite JsStringFacts.includes_false. reflexivity.
Qed.

Lemma filter_subsequence {A : Type} (f : A -> bool) (l : list A) :
  subsequence (filter f l) l.
Proof.
  induction l as [|x l IH]; simpl; [constructor|].
  destruct (f x); constructor; exact IH.
Qed.

Lemma scope_list_In (s t : str) :
  In t (scope_list s) <-> In t (JsString.split " " s) /\ t <> [].
Proof.
  unfold scope_list. rewrite filter_In, JsStringFacts.truthy_true.
  reflexivity.
Qed.

(** C1. After an exchange answered 200 with a readable scope, the missing
    scopes are the required ones that are not among the granted ones, in the
    order of the required list; when there is one, the answer is the 400
    [missing_scopes] body listing the required, the granted and the missing
    scopes, and nothing but the exchange was called. *)
Theorem C1_missing_is_required_minus_granted
  (cfg : config) (wording : type_error -> str) (code : query_value)
  (w : world) (tokenData : json) (s : str) :
  query_truthy code = true ->
  w (token_call cfg code) = Answer 200 tokenData ->
  scope_string tokenData = Some s ->
  let required := scope_list (REQUIRED_SCOPES cfg) in
  let granted := scope_list s in
  let missing := missing_scopes required granted in
  (forall x, In x missing <-> In x required /\ ~ In x granted)
  /\ subsequence missing required
  /\ (missing <> [] ->
      run w (OauthJson.handler cfg wording code)
      = (Returned
           (JsonBodies.missing_scopes_response cfg required granted missing),
         [token_call cfg code])).
Proof.
  intros Hc Hw Hs required granted missing. split; [|split].
  - intros x. apply missing_scopes_spec.
  - apply filter_subsequence.
  - intros Hm. apply (JsonRuns.json_scopes_missing cfg wording code w tokenData s);
      assumption.
Qed.

(** Required [a b c], granted [a b]: missing is [c]. *)
Lemma C1_abc_witness :
  run (provider (Answer 200 (token_of "a b")) (Failure "unused"))
    (OauthJson.handler abc_config sample_wording (QString "code123"))
  = (Returned
       (JsonBodies.missing_scopes_response abc_config
          ["a"; "b"; "c"] ["a"; "b"] ["c"]),
     [token_call abc_config (QString "code123")]).
Proof.
  refine (proj2 (proj2
    (C1_missing_is_required_minus_granted abc_config sample_wording
       (QString "code123")
       (provider (Answer 200 (token_of "a b")) (Failure "unused"))
       (token_of "a b") "a b" _ _ _)) _).
  - reflexivity.
  - reflexivity.
  - reflexivity.
  - discriminate.
Defined.

(** The page of the HTML edition shows the missing scopes only. *)
Lemma html_missing_scopes_page
  (cfg : config) (code : query_value) (w : world) (tokenData : json) (s : str) :
  query_truthy code = true ->
  w (token_call cfg code) = Answer 200 tokenData ->
  scope_string tokenData = Some s ->
  missing_scopes (scope_list (REQUIRED_SCOPES cfg)) (scope_list s) <> [] ->
  run w (OauthHtml.handler cfg code)
  = (Returned
       (res_send 400
          (MissingPermissionsPage
             (OauthHtml.list_items
                (missing_scopes (scope_list (REQUIRED_SCOPES cfg))
                   (scope_list s)))
             (buildAuthorizeUrl cfg))),
     [token_call cfg code]).
Proof. apply HtmlRuns.html_scopes_missing. Qed.

(** ** The exchange step *)

(** C2, as the code has it. With a code, the handler of [api/oauth.js] never
    throws. A token response of a status other than 200 gives the 500
    [token_exchange_failed] body with the upstream status, the upstream body
    and the authorize URL; a call that fails without a response is caught as
    well and ends in the unexpected error; status 200, and only 200, goes on
    to scope validation. *)
Theorem C2_exchange_step
  (cfg : config) (wording : type_error -> str) (code : query_value)
  (w : world) :
  query_truthy code = true ->
  match w (token_call cfg code) with
  | Answer upstream details =>
      if (upstream =? 200)%Z then
        exists r rest,
          run w (OauthJson.handler cfg wording code)
          = (Returned r, token_call cfg code :: rest)
          /\ (outcome_of r = Some ScopesMissing
              \/ outcome_of r = Some Success
              \/ outcome_of r = Some UnexpectedError)
      else
        run w (OauthJson.handler cfg wording code)
        = (Returned (JsonBodies.token_exchange_failed cfg upstream details),
           [token_call cfg code])
  | Failure text =>
      exists r,
        run w (OauthJson.handler cfg wording code)
        = (Returned r, [token_call cfg code])
        /\ outcome_of r = Some UnexpectedError
  end.
Proof.
  intros Hc.
  destruct (w (token_call cfg code)) as [st d | text] eqn:Hw.
  - destruct (Z.eqb_spec st 200) as [->|Hst].
    + destruct (json_flow cfg wording code w)
        as (r & calls & o & E & Ho & Hp & Hcalls).
      destruct (Hcalls Hc) as (rest & ->).
      exists r, rest. split; [exact E|].
      destruct o; simpl in Hp; auto.
      * destruct Hp; congruence.
      * destruct Hp; congruence.
      * destruct Hp as (_ & st' & d' & Hw' & Hst'). congruence.
    + apply JsonRuns.json_refused; assumption.
  - rewrite (JsonRuns.json_transport_failure cfg wording code w text Hc Hw).
    eexists. split; reflexivity.
Qed.

Lemma C2_exchange_step_witness :
  run (provider (Answer 401 (JObj [("error", JStr "invalid_client")]))
         (Failure "unused"))
    (OauthJson.handler sample_config sample_wording (QString "code123"))
  = (Returned
       (JsonBodies.token_exchange_failed sample_config 401
          (JObj [("error", JStr "invalid_client")])),
     [token_call sample_config (QString "code123")]).
Proof.
  exact (C2_exchange_step sample_config sample_wording (QString "code123")
           (provider (Answer 401 (JObj [("error", JStr "invalid_client")]))
              (Failure "unused"))
           eq_refl).
Defined.

(** C2 as worded fails twice on [api/oauth.js]: a transport failure ends in
    the unexpected error, not in an exchange failure; and the success status
    201 does not go past the exchange but ends in [token_exchange_failed]. *)
Lemma C2_counterexample :
  let code := QString "code123" in
  let dropped :=
    provider (Failure "connect ETIMEDOUT 162.159.128.233:443")
      (Failure "unused") in
  let created :=
    provider (Answer 201 (token_of "identify applications.commands gdm.join"))
      (Answer 200 sample_user) in
  (exists r calls,
     run dropped (OauthJson.handler sample_config sample_wording code)
     = (Returned r, calls)
     /\ outcome_of r = Some UnexpectedError
     /\ outcome_of r <> Some ExchangeFailed)
  /\ (exists r calls,
        run created (OauthJson.handler sample_config sample_wording code)
        = (Returned r, calls)
        /\ outcome_of r = Some ExchangeFailed).
Proof.
  split.
  - eexists _, _. split; [reflexivity|].
    split; [reflexivity | discriminate].
  - eexists _, _. split; reflexivity.
Qed.

(** The bare exchange of [part_001] leaves the status check to axios: a
    status outside 200..299 and a transport failure both end in the same 500
    body, which has neither the upstream status nor an authorize URL; a status
    from 200 to 299 is answered with 200 and the upstream body. *)
Lemma bare_exchange_step (cfg : config) (code : query_value) (w : world) :
  query_truthy code = true ->
  run w (Exchange.handler cfg code)
  = (Returned
       match w (token_call cfg code) with
       | Answer upstream details =>
           if default_validateStatus upstream then res_json 200 details
           else res_json 500
                  (JObj [("error", JStr "Error exchanging code for token")])
       | Failure _ =>
           res_json 500
             (JObj [("error", JStr "Error exchanging code for token")])
       end,
     [token_call cfg code]).
Proof.
  intros Hc. unfold Exchange.handler. rewrite Hc. cbn [negb].
  unfold axios. cbn [bind try_catch run]. fold (token_call cfg code).
  destruct (w (token_call cfg code)) as [st d | text]; [|reflexivity].
  destruct (default_validateStatus st); reflexivity.
Qed.

(** ** The request without a code *)

(** C3. Without a code (absent, or empty), when the client id, the client
    secret or the redirect URI is unset or empty, both editions of
    [/api/oauth] answer 500 with their configuration error and make no
    outbound call. *)
Theorem C3_misconfiguration_without_code
  (cfg : config) (wording : type_error -> str) (code : query_value)
  (w : world) :
  query_truthy code = false ->
  env_truthy (CLIENT_ID cfg) = false
  \/ env_truthy (CLIENT_SECRET cfg) = false
  \/ env_truthy (REDIRECT_URI cfg) = false ->
  run w (OauthJson.handler cfg wording code)
  = (Returned JsonBodies.server_misconfigured, [])
  /\ run w (OauthHtml.handler cfg code)
     = (Returned (res_send 500 ConfigurationErrorPage), []).
Proof.
  intros Hc Hcfg.
  assert (Hm : misconfigured cfg = true).
  { unfold misconfigured.
    destruct Hcfg as [-> | [-> | ->]]; simpl;
      rewrite ?orb_true_r; reflexivity. }
  rewrite JsonRuns.json_no_code, HtmlRuns.html_no_code by exact Hc.
  rewrite Hm. split; reflexivity.
Qed.

Lemma C3_no_secret_witness :
  run (provider (Failure "unused") (Failure "unused"))
    (OauthJson.handler no_secret_config sample_wording QAbsent)
  = (Returned JsonBodies.server_misconfigured, [])
  /\ run (provider (Failure "unused") (Failure "unused"))
       (OauthHtml.handler no_secret_config QAbsent)
     = (Returned (res_send 500 ConfigurationErrorPage), []).
Proof.
  apply (C3_misconfiguration_without_code no_secret_config sample_wording
           QAbsent (provider (Failure "unused") (Failure "unused"))).
  - reflexivity.
  - right. left. reflexivity.
Defined.

(** The bare exchange of [part_001] has no configuration check: without a
    code it answers 400 [Missing code], whatever the configuration; it makes
    no outbound call either. *)
Lemma bare_exchange_without_code
  (cfg : config) (code : query_value) (w : world) :
  query_truthy code = false ->
  run w (Exchange.handler cfg code)
  = (Returned (res_json 400 (JObj [("error", JStr "Missing code")])), []).
Proof.
  intros Hc. unfold Exchange.handler. rewrite Hc. reflexivity.
Qed.

(** C7. Without a code and with the three settings present and not empty,
    the answer is a 302 whose [Location] is the authorize URL, no outbound
    call is made, and the parameters of that URL hold the client id, the
    redirect URI, and a [scope] in which every required scope occurs. *)
Theorem C7_redirect_to_authorize
  (cfg : config) (wording : type_error -> str) (code : query_value)
  (w : world) (client_id secret redirect : str) :
  query_truthy code = false ->
  CLIENT_ID cfg = Some client_id -> client_id <> [] ->
  CLIENT_SECRET cfg = Some secret -> secret <> [] ->
  REDIRECT_URI cfg = Some redirect -> redirect <> [] ->
  exists target,
    run w (OauthJson.handler cfg wording code)
    = (Returned (res_redirect 302 target), [])
    /\ target = buildAuthorizeUrl cfg
    /\ UrlEncoded.get "client_id" (UrlEncoded.searchParams target)
       = Some client_id
    /\ UrlEncoded.get "redirect_uri" (UrlEncoded.searchParams target)
       = Some redirect
    /\ exists scope,
         UrlEncoded.get "scope" (UrlEncoded.searchParams target) = Some scope
         /\ forall r,
              In r (scope_list (REQUIRED_SCOPES cfg)) -> occurs_in r scope.
Proof.
  intros Hc Hid Hid' Hsec Hsec' Huri Huri'.
  exists (buildAuthorizeUrl cfg).
  assert (Hm : misconfigured cfg = false).
  { unfold misconfigured. rewrite Hid, Hsec, Huri. simpl.
    apply JsStringFacts.truthy_true in Hid', Hsec', Huri'.
    rewrite Hid', Hsec', Huri'. reflexivity. }
  rewrite JsonRuns.json_no_code by exact Hc. rewrite Hm.
  rewrite UrlEncodedFacts.searchParams_buildAuthorizeUrl.
  rewrite Hid, Huri.
  repeat split.
  eexists. split; [reflexivity|].
  intros r Hr. apply JsStringFacts.join_occurs.
  apply scope_list_In in Hr. tauto.
Qed.

Lemma C7_sample_witness :
  exists target,
    run (provider (Failure "unused") (Failure "unused"))
      (OauthJson.handler sample_config sample_wording QAbsent)
    = (Returned (res_redirect 302 target), [])
    /\ target = buildAuthorizeUrl sample_config
    /\ UrlEncoded.get "client_id" (UrlEncoded.searchParams target)
       = Some "1234567890"
    /\ UrlEncoded.get "redirect_uri" (UrlEncoded.searchParams target)
       = Some "https://example.com/api/oauth"
    /\ exists scope,
         UrlEncoded.get "scope" (UrlEncoded.searchParams target) = Some scope
         /\ forall r,
              In r (scope_list (REQUIRED_SCOPES sample_config)) ->
              occurs_in r scope.
Proof.
  apply (C7_redirect_to_authorize sample_config sample_wording QAbsent
           (provider (Failure "unused") (Failure "unused"))
           "1234567890" "s3cret" "https://example.com/api/oauth").
  - reflexivity.
  - reflexivity.
  - discriminate.
  - reflexivity.
  - discriminate.
  - reflexivity.
  - discriminate.
Defined.

(** ** Identity resolution *)

(** C4. Once the exchange was answered 200 and no required scope is missing,
    the answer is the 200 of success whatever the identity lookup does; when
    the lookup is not answered with status 200 (another status, or no
    response at all), [user] is [null]. The HTML edition shows its success
    page in every case. *)
Theorem C4_identity_is_best_effort
  (cfg : config) (wording : type_error -> str) (code : query_value)
  (w : world) (tokenData : json) (s : str) :
  query_truthy code = true ->
  w (token_call cfg code) = Answer 200 tokenData ->
  scope_string tokenData = Some s ->
  missing_scopes (scope_list (REQUIRED_SCOPES cfg)) (scope_list s) = [] ->
  (exists user rest,
     run w (OauthJson.handler cfg wording code)
     = (Returned (JsonBodies.ok tokenData user), token_call cfg code :: rest)
     /\ ((forall identity, w (identity_call tokenData) <> Answer 200 identity)
         -> user = JNull))
  /\ (exists rest,
        run w (OauthHtml.handler cfg code)
        = (Returned
             (res_send 200
                (AuthorizationSuccessfulPage (SUCCESS_REDIRECT_URL cfg))),
           token_call cfg code :: rest)).
Proof.
  intros Hc Hw Hs Hm. split.
  - destruct (JsonRuns.json_scopes_granted cfg wording code w tokenData s
                Hc Hw Hs Hm) as (user & rest & E & Hu).
    exists user, rest. split; [exact E|].
    intros Hfail. destruct Hu as [->|Hu]; [reflexivity|].
    exfalso. exact (Hfail user Hu).
  - apply (HtmlRuns.html_scopes_granted cfg code w tokenData s); assumption.
Qed.

(** The identity endpoint answers 503: the answer is the 200 with
    [user: null]. *)
Lemma C4_unavailable_witness :
  let scopes := "identify applications.commands gdm.join" in
  let w := provider (Answer 200 (token_of scopes)) (Answer 503 JNull) in
  fst (run w (OauthJson.handler sample_config sample_wording (QString "code123")))
  = Returned (JsonBodies.ok (token_of scopes) JNull).
Proof.
  intros scopes w.
  destruct (C4_identity_is_best_effort sample_config sample_wording
              (QString "code123") w (token_of scopes) scopes
              eq_refl eq_refl eq_refl eq_refl)
    as [(user & rest & E & Hnull) _].
  rewrite E. simpl. rewrite Hnull; [reflexivity|].
  intros identity. discriminate.
Defined.

(** ** Unexpected errors *)

(** In the HTML edition the page of an unexpected error holds nothing of the
    error: every failure of the exchange call, whatever its text, and every
    unreadable token response give the same page, which has the retry
    link. *)
Lemma html_unexpected_error_is_generic
  (cfg : config) (code : query_value) (w1 w2 : world) (text1 text2 : str) :
  query_truthy code = true ->
  w1 (token_call cfg code) = Failure text1 ->
  w2 (token_call cfg code) = Failure text2 ->
  run w1 (OauthHtml.handler cfg code) = run w2 (OauthHtml.handler cfg code)
  /\ fst (run w1 (OauthHtml.handler cfg code))
     = Returned (res_send 500 (UnexpectedErrorPage (buildAuthorizeUrl cfg))).
Proof.
  intros Hc H1 H2.
  rewrite (HtmlRuns.html_transport_failure cfg code w1 text1 Hc H1).
  rewrite (HtmlRuns.html_transport_failure cfg code w2 text2 Hc H2).
  split; reflexivity.
Qed.

(** In [api/oauth.js] the body of an unexpected error is made of the text of
    the error: two failures with different texts give different bodies. *)
Lemma json_unexpected_error_echoes
  (cfg : config) (wording : type_error -> str) (code : query_value)
  (w1 w2 : world) (text1 text2 : str) :
  query_truthy code = true ->
  w1 (token_call cfg code) = Failure text1 ->
  w2 (token_call cfg code) = Failure text2 ->
  text1 <> text2 ->
  fst (run w1 (OauthJson.handler cfg wording code))
  <> fst (run w2 (OauthJson.handler cfg wording code)).
Proof.
  intros Hc H1 H2 Hne.
  rewrite (JsonRuns.json_transport_failure cfg wording code w1 text1 Hc H1).
  rewrite (JsonRuns.json_transport_failure cfg wording code w2 text2 Hc H2).
  simpl. intros E. apply Hne. inversion E. reflexivity.
Qed.

(** C5, on [api/oauth.js]. The connection to the token endpoint is refused:
    the failure is caught and answered with 500 [unexpected_error], but the
    body carries the text of the exception as it is and no retry link, and
    another text gives another body. The HTML edition answers both runs with
    the same page. *)
Theorem C5_unexpected_error_echoes_the_exception :
  let code := QString "code123" in
  let refused := "connect ECONNREFUSED 10.0.0.7:443" in
  let unknown := "getaddrinfo ENOTFOUND discord.com" in
  let w1 := provider (Failure refused) (Failure "unused") in
  let w2 := provider (Failure unknown) (Failure "unused") in
  run w1 (OauthJson.handler sample_config sample_wording code)
  = (Returned
       (res_json 500 (JObj
          [ ("error", JStr "unexpected_error");
            ("message", JStr "connect ECONNREFUSED 10.0.0.7:443") ])),
     [token_call sample_config code])
  /\ body_member "authorize_url"
       (JsonBodies.unexpected_error refused) = None
  /\ fst (run w1 (OauthJson.handler sample_config sample_wording code))
     <> fst (run w2 (OauthJson.handler sample_config sample_wording code))
  /\ run w1 (OauthHtml.handler sample_config code)
     = run w2 (OauthHtml.handler sample_config code).
Proof.
  intros code refused unknown w1 w2.
  split; [reflexivity|]. split; [reflexivity|]. split.
  - apply (json_unexpected_error_echoes sample_config sample_wording code
             w1 w2 refused unknown); try reflexivity. discriminate.
  - reflexivity.
Qed.

(** ** The authorize URL *)

(** The [scope] parameter of the authorize URL, read back, is the string of
    required scopes with every space turned into a plus sign. *)
Lemma scope_parameter (cfg : config) :
  UrlEncoded.get "scope" (UrlEncoded.searchParams (buildAuthorizeUrl cfg))
  = Some (map (fun c => if Ascii.eqb c " " then "+"%char else c)
            (REQUIRED_SCOPES cfg)).
Proof.
  rewrite UrlEncodedFacts.searchParams_buildAuthorizeUrl.
  rewrite <- JsStringFacts.join_split_replace. reflexivity.
Qed.

(** C6, on the default scopes. The builder joins the scopes with [+] and
    [URLSearchParams] then escapes each [+] as [%2B]: read back, the [scope]
    parameter is the one string [identify+applications.commands+gdm.join],
    not the three scopes separated by spaces. *)
Theorem C6_scope_parameter_of_the_default_scopes :
  let target := buildAuthorizeUrl sample_config in
  REQUIRED_SCOPES sample_config = "identify applications.commands gdm.join"
  /\ target
     = "https://discord.com/oauth2/authorize?client_id=1234567890&redirect_uri=https%3A%2F%2Fexample.com%2Fapi%2Foauth&response_type=code&scope=identify%2Bapplications.commands%2Bgdm.join"
  /\ UrlEncoded.get "scope" (UrlEncoded.searchParams target)
     = Some "identify+applications.commands+gdm.join"
  /\ UrlEncoded.get "scope" (UrlEncoded.searchParams target)
     <> Some (JsString.join " " (scope_list (REQUIRED_SCOPES sample_config))).
Proof.
  cbv zeta. split; [reflexivity|]. split; [reflexivity|].
  split; [reflexivity|]. discriminate.
Qed.

(** C9. The authorize URL is a function of the client id, the redirect URI
    and the required scopes alone: two configurations that agree on them get
    the same URL, byte for byte. The builder answers for every configuration,
    unset values included, with the authorize endpoint followed by a query
    made of URL bytes only. *)
Theorem C9_builder_is_deterministic (cfg1 cfg2 : config) :
  CLIENT_ID cfg1 = CLIENT_ID cfg2 ->
  REDIRECT_URI cfg1 = REDIRECT_URI cfg2 ->
  REQUIRED_SCOPES cfg1 = REQUIRED_SCOPES cfg2 ->
  buildAuthorizeUrl cfg1 = buildAuthorizeUrl cfg2
  /\ exists query,
       buildAuthorizeUrl cfg1 = "https://discord.com/oauth2/authorize?" ++ query
       /\ forallb UrlEncoded.url_byte query = true.
Proof.
  intros Hid Huri Hscopes. split.
  - unfold buildAuthorizeUrl. rewrite Hid, Huri, Hscopes. reflexivity.
  - eexists. split; [reflexivity|]. apply UrlEncodedFacts.toString_url_bytes.
Qed.

(** Two deployments that differ in the client secret. *)
Lemma C9_sample_witness :
  buildAuthorizeUrl sample_config = buildAuthorizeUrl no_secret_config.
Proof.
  apply (C9_builder_is_deterministic sample_config no_secret_config).
  - reflexivity.
  - reflexivity.
  - reflexivity.
Defined.

(** ** Scope comparison *)

(** C8, as the code has it. The scopes of a string are its non-empty pieces
    between space characters: a string without a space is one scope, whatever
    else it holds. After an exchange answered 200 with a readable scope, the
    handler goes on to success exactly when the granted list holds, for every
    required scope, the very same string; otherwise it answers with the
    [missing_scopes] body, whose missing list holds the required scopes that
    no granted scope equals. With an empty string of required scopes no run
    ends in that answer; the loaded string is empty only when the variable is
    set and not empty (a blank, for instance). *)
Theorem C8_scope_comparison
  (cfg : config) (wording : type_error -> str) (code : query_value)
  (w : world) :
  (forall s,
     JsString.join " " (JsString.split " " s) = s
     /\ (forall t, In t (JsString.split " " s) -> ~ In " "%char t)
     /\ (forall t, In t (scope_list s)
                   <-> In t (JsString.split " " s) /\ t <> [])
     /\ (~ In " "%char s -> s <> [] -> scope_list s = [s]))
  /\ (forall tokenData s,
        query_truthy code = true ->
        w (token_call cfg code) = Answer 200 tokenData ->
        scope_string tokenData = Some s ->
        let required := scope_list (REQUIRED_SCOPES cfg) in
        let granted := scope_list s in
        ((forall r, In r required -> In r granted) ->
         exists user rest,
           run w (OauthJson.handler cfg wording code)
           = (Returned (JsonBodies.ok tokenData user),
              token_call cfg code :: rest))
        /\ ((exists r, In r required /\ ~ In r granted) ->
            exists missing,
              run w (OauthJson.handler cfg wording code)
              = (Returned
                   (JsonBodies.missing_scopes_response cfg required granted
                      missing),
                 [token_call cfg code])
              /\ forall x, In x missing <-> In x required /\ ~ In x granted))
  /\ (REQUIRED_SCOPES cfg = [] ->
      exists r calls,
        run w (OauthJson.handler cfg wording code) = (Returned r, calls)
        /\ outcome_of r <> Some ScopesMissing)
  /\ (forall env,
        REQUIRED_SCOPES (load_config env) = [] ->
        env_truthy (env_REQUIRED_SCOPES env) = true).
Proof.
  split; [|split; [|split]].
  - intros s. split; [|split; [|split]].
    + apply JsStringFacts.join_split.
    + intros t. apply JsStringFacts.split_pieces.
    + intros t. apply scope_list_In.
    + intros Hclean Hne. unfold scope_list.
      rewrite JsStringFacts.split_clean by exact Hclean.
      simpl. apply JsStringFacts.truthy_true in Hne. rewrite Hne. reflexivity.
  - intros tokenData s Hc Hw Hs required granted. split.
    + intros Hall.
      assert (Hm : missing_scopes required granted = []).
      { destruct (missing_scopes required granted) as [|x l] eqn:E;
          [reflexivity|].
        assert (Hin : In x (missing_scopes required granted))
          by (rewrite E; left; reflexivity).
        apply missing_scopes_spec in Hin. destruct Hin as [Hr Hg].
        destruct (Hg (Hall x Hr)). }
      destruct (JsonRuns.json_scopes_granted cfg wording code w tokenData s
                  Hc Hw Hs Hm) as (user & rest & E & _).
      exists user, rest. exact E.
    + intros (r & Hr & Hg).
      assert (Hm : missing_scopes required granted <> []).
      { intros E.
        assert (Hin : In r (missing_scopes required granted))
          by (apply missing_scopes_spec; split; assumption).
        rewrite E in Hin. destruct Hin. }
      exists (missing_scopes required granted). split.
      * apply (JsonRuns.json_scopes_missing cfg wording code w tokenData s);
          assumption.
      * intros x. apply missing_scopes_spec.
  - intros Hempty.
    destruct (json_flow cfg wording code w)
      as (r & calls & o & E & Ho & Hp & _).
    exists r, calls. split; [exact E|].
    rewrite Ho. intros [= ->]. simpl in Hp.
    destruct Hp as (_ & d & s & _ & _ & Hm).
    rewrite Hempty in Hm. apply Hm. reflexivity.
  - intros env. unfold load_config. cbn [REQUIRED_SCOPES].
    unfold env_or, env_truthy.
    destruct (env_REQUIRED_SCOPES env) as [v|].
    + destruct (JsString.truthy v); [reflexivity | discriminate].
    + discriminate.
Qed.

(** Required [identify], granted [Identify]: the scope is missing. And with
    [REQUIRED_SCOPES] set to a blank, a token that grants nothing passes. *)
Lemma C8_scope_comparison_witness :
  (exists missing,
     run (provider (Answer 200 (token_of "Identify")) (Answer 200 sample_user))
       (OauthJson.handler identify_config sample_wording (QString "code123"))
     = (Returned
          (JsonBodies.missing_scopes_response identify_config
             ["identify"] ["Identify"] missing),
        [token_call identify_config (QString "code123")])
     /\ forall x, In x missing <-> In x ["identify"] /\ ~ In x ["Identify"])
  /\ (exists r calls,
        run (provider (Answer 200 (token_of "")) (Answer 200 sample_user))
          (OauthJson.handler blank_scopes_config sample_wording
             (QString "code123"))
        = (Returned r, calls)
        /\ outcome_of r <> Some ScopesMissing).
Proof.
  split.
  - apply (proj2 (proj1 (proj2
      (C8_scope_comparison identify_config sample_wording (QString "code123")
         (provider (Answer 200 (token_of "Identify")) (Answer 200 sample_user))))
      (token_of "Identify") "Identify" eq_refl eq_refl eq_refl)).
    exists "identify". split; [left; reflexivity|].
    intros [H|[]]. discriminate.
  - apply (proj1 (proj2 (proj2
      (C8_scope_comparison blank_scopes_config sample_wording
         (QString "code123")
         (provider (Answer 200 (token_of "")) (Answer 200 sample_user)))))).
    reflexivity.
Defined.

(** C8 as worded fails on two inputs. A TAB is white space but does not
    separate scopes: with [a b] required, the granted string [a<TAB>b] is one
    scope and both required scopes are missing. And a required-scope setting
    that is empty is replaced by the default scopes, so that a token granting
    nothing ends in the [missing_scopes] answer. *)
Lemma C8_counterexample :
  let tabbed : str := ["a"; "009"; "b"]%char in
  run (provider (Answer 200 (token_of tabbed)) (Answer 200 sample_user))
    (OauthJson.handler ab_config sample_wording (QString "code123"))
  = (Returned
       (JsonBodies.missing_scopes_response ab_config
          ["a"; "b"] [tabbed] ["a"; "b"]),
     [token_call ab_config (QString "code123")])
  /\ REQUIRED_SCOPES empty_scopes_config
     = "identify applications.commands gdm.join"
  /\ (exists r calls,
        run (provider (Answer 200 (token_of "")) (Answer 200 sample_user))
          (OauthJson.handler empty_scopes_config sample_wording
             (QString "code123"))
        = (Returned r, calls)
        /\ outcome_of r = Some ScopesMissing).
Proof.
  split; [vm_compute; reflexivity|]. split; [vm_compute; reflexivity|].
  eexists _, _. split; vm_compute; reflexivity.
Qed.

(** An empty [REQUIRED_SCOPES] variable is not an empty list of required
    scopes: [||] puts the default in its place. The list is empty when the
    variable holds white space only. *)
Lemma required_scopes_of_an_empty_setting (env : process_env) :
  env_REQUIRED_SCOPES env = Some [] ->
  REQUIRED_SCOPES (load_config env) = "identify applications.commands gdm.join".
Proof. intros H. unfold load_config. simpl. rewrite H. reflexivity. Qed.

(** ** The request with a code *)

Lemma path_with_code
  (cfg : config) (code : query_value) (w : world) (o : outcome) :
  query_truthy code = true ->
  path_of cfg code w o ->
  o <> ConfigurationError
  /\ o <> RedirectToAuthorize
  /\ ((forall tokenData, w (token_call cfg code) <> Answer 200 tokenData) ->
      o = ExchangeFailed \/ o = UnexpectedError).
Proof.
  intros Hc Hp. destruct o; simpl in Hp.
  - destruct Hp; congruence.
  - destruct Hp; congruence.
  - repeat split; try discriminate. auto.
  - repeat split; try discriminate.
    intros Hno. destruct Hp as (_ & d & s & Hw & _). destruct (Hno d Hw).
  - repeat split; try discriminate.
    intros Hno. destruct Hp as (_ & d & s & Hw & _). destruct (Hno d Hw).
  - repeat split; try discriminate. auto.
Qed.

(** C10, as the code has it. With a code that is present and not empty, the
    configuration is not looked at: whatever the client id, the client secret
    and the redirect URI are, the first thing both editions do is the token
    exchange with those values, the run ends in an answer that is never the
    configuration error, and when the token endpoint does not answer 200 the
    answer is the exchange failure or the unexpected error. *)
Theorem C10_no_configuration_check_with_code
  (cfg : config) (wording : type_error -> str) (code : query_value)
  (w : world) :
  query_truthy code = true ->
  (exists r rest o,
     run w (OauthJson.handler cfg wording code)
     = (Returned r, token_call cfg code :: rest)
     /\ outcome_of r = Some o
     /\ o <> ConfigurationError
     /\ ((forall tokenData, w (token_call cfg code) <> Answer 200 tokenData) ->
         o = ExchangeFailed \/ o = UnexpectedError))
  /\ (exists r rest o,
        run w (OauthHtml.handler cfg code)
        = (Returned r, token_call cfg code :: rest)
        /\ outcome_of r = Some o
        /\ o <> ConfigurationError
        /\ ((forall tokenData, w (token_call cfg code) <> Answer 200 tokenData) ->
            o = ExchangeFailed \/ o = UnexpectedError)).
Proof.
  intros Hc. split.
  - destruct (json_flow cfg wording code w)
      as (r & calls & o & E & Ho & Hp & Hcalls).
    destruct (Hcalls Hc) as (rest & ->).
    destruct (path_with_code cfg code w o Hc Hp) as (H1 & _ & H2).
    exists r, rest, o. auto.
  - destruct (html_flow cfg code w)
      as (r & calls & o & E & Ho & Hp & Hcalls).
    destruct (Hcalls Hc) as (rest & ->).
    destruct (path_with_code cfg code w o Hc Hp) as (H1 & _ & H2).
    exists r, rest, o. auto.
Qed.

(** Without a client secret, the exchange is tried all the same. *)
Lemma C10_no_secret_witness :
  exists r rest o,
    run (provider (Answer 401 (JObj [("error", JStr "invalid_client")]))
           (Failure "unused"))
      (OauthJson.handler no_secret_config sample_wording (QString "code123"))
    = (Returned r, token_call no_secret_config (QString "code123") :: rest)
    /\ outcome_of r = Some o
    /\ o <> ConfigurationError
    /\ ((forall tokenData,
           provider (Answer 401 (JObj [("error", JStr "invalid_client")]))
             (Failure "unused")
             (token_call no_secret_config (QString "code123"))
           <> Answer 200 tokenData) ->
        o = ExchangeFailed \/ o = UnexpectedError).
Proof.
  apply (C10_no_configuration_check_with_code no_secret_config sample_wording
           (QString "code123")
           (provider (Answer 401 (JObj [("error", JStr "invalid_client")]))
              (Failure "unused"))).
  reflexivity.
Defined.

(** C10 as worded fails on two requests to a deployment without a client
    secret. The request [?code=] has the parameter, with an empty value: the
    handler takes it for a request without a code, and answers with the
    configuration error. And with a code, the outcome is whatever the token
    endpoint's answer leads to: when that answer is a 200 granting every
    scope, the outcome is the success. *)
Lemma C10_counterexample :
  let w :=
    provider (Answer 200 (token_of "identify applications.commands gdm.join"))
      (Answer 200 sample_user) in
  QString [] <> QAbsent
  /\ (exists r,
        run w (OauthJson.handler no_secret_config sample_wording (QString []))
        = (Returned r, [])
        /\ outcome_of r = Some ConfigurationError)
  /\ (exists r calls,
        run w (OauthJson.handler no_secret_config sample_wording
                 (QString "code123"))
        = (Returned r, calls)
        /\ outcome_of r = Some Success).
Proof.
  split; [discriminate|]. split.
  - eexists. split; reflexivity.
  - eexists _, _. split; reflexivity.
Qed.

(* ================================================================== *)
(** * Further properties *)

(** ** [logSecurely] *)

Module LoggingFacts.
Import Logging.

Lemma get_assign_same (key : str) (v : js_value) (obj : js_object) :
  get key (assign key v obj) = v.
Proof.
  induction obj as [|[k x] rest IH]; simpl.
  - rewrite JsStringFacts.eqb_refl. reflexivity.
  - destruct (JsString.eqb k key) eqn:E; simpl; rewrite E; auto.
Qed.

Lemma get_assign_other (key other : str) (v : js_value) (obj : js_object) :
  other <> key -> get other (assign key v obj) = get other obj.
Proof.
  intros Hne. induction obj as [|[k x] rest IH]; simpl.
  - destruct (JsString.eqb key other) eqn:E; [|reflexivity].
    apply JsStringFacts.eqb_eq in E. congruence.
  - destruct (JsString.eqb k key) eqn:E; simpl.
    + apply JsStringFacts.eqb_eq in E. subst k.
      destruct (JsString.eqb key other) eqn:E'; [|reflexivity].
      apply JsStringFacts.eqb_eq in E'. congruence.
    + destruct (JsString.eqb k other); auto.
Qed.

Lemma lookup_assign_same (key : str) (v : json) (members : list (str * json)) :
  lookup key (assign key v members) = Some v.
Proof.
  induction members as [|[k x] rest IH]; simpl.
  - rewrite JsStringFacts.eqb_refl. reflexivity.
  - destruct (JsString.eqb k key) eqn:E; simpl; rewrite E; auto.
Qed.

Lemma lookup_assign_other (key other : str) (v : json)
  (members : list (str * json)) :
  other <> key -> lookup other (assign key v members) = lookup other members.
Proof.
  intros Hne. induction members as [|[k x] rest IH]; simpl.
  - destruct (JsString.eqb key other) eqn:E; [|reflexivity].
    apply JsStringFacts.eqb_eq in E. congruence.
  - destruct (JsString.eqb k key) eqn:E; simpl.
    + apply JsStringFacts.eqb_eq in E. subst k.
      destruct (JsString.eqb key other) eqn:E'; [|reflexivity].
      apply JsStringFacts.eqb_eq in E'. congruence.
    + destruct (JsString.eqb k other); auto.
Qed.

(** An assignment to a member that is there keeps the keys as they are. *)
Lemma assign_keys (key : str) (v : js_value) (obj : js_object) :
  value_truthy (get key obj) = true ->
  map fst (assign key v obj) = map fst obj.
Proof.
  induction obj as [|[k x] rest IH]; simpl; [discriminate|].
  destruct (JsString.eqb k key); simpl; intros H; [reflexivity|].
  rewrite IH by exact H. reflexivity.
Qed.

Section Steps.

Variable string_entries : str -> list (str * json).

Lemma get_redact_access_token (key : str) (obj : js_object) :
  key <> "access_token" -> get key (redact_access_token obj) = get key obj.
Proof.
  intros H. unfold redact_access_token.
  destruct (value_truthy (get "access_token" obj)); [|reflexivity].
  apply get_assign_other. exact H.
Qed.

Lemma get_redact_refresh_token (key : str) (obj : js_object) :
  key <> "refresh_token" -> get key (redact_refresh_token obj) = get key obj.
Proof.
  intros H. unfold redact_refresh_token.
  destruct (value_truthy (get "refresh_token" obj)); [|reflexivity].
  apply get_assign_other. exact H.
Qed.

Lemma get_redact_token (key : str) (obj : js_object) :
  key <> "token" -> get key (redact_token string_entries obj) = get key obj.
Proof.
  intros H. unfold redact_token.
  destruct (get "token" obj) as [token|]; [|reflexivity].
  destruct (json_truthy token); [|reflexivity].
  apply get_assign_other. exact H.
Qed.

(** The three steps leave every other member alone. *)
Lemma get_steps (key : str) (obj : js_object) :
  key <> "access_token" -> key <> "refresh_token" -> key <> "token" ->
  get key
    (redact_token string_entries
       (redact_refresh_token (redact_access_token obj)))
  = get key obj.
Proof.
  intros H1 H2 H3.
  rewrite get_redact_token, get_redact_refresh_token, get_redact_access_token;
    auto.
Qed.

Lemma steps_keys (obj : js_object) :
  map fst
    (redact_token string_entries
       (redact_refresh_token (redact_access_token obj)))
  = map fst obj.
Proof.
  unfold redact_token.
  set (o2 := redact_refresh_token (redact_access_token obj)).
  assert (E2 : map fst o2 = map fst obj).
  { unfold o2, redact_refresh_token.
    set (o1 := redact_access_token obj).
    assert (E1 : map fst o1 = map fst obj).
    { unfold o1, redact_access_token.
      destruct (value_truthy (get "access_token" obj)) eqn:E; [|reflexivity].
      apply assign_keys. exact E. }
    destruct (value_truthy (get "refresh_token" o1)) eqn:E; [|exact E1].
    rewrite assign_keys by exact E. exact E1. }
  destruct (get "token" o2) as [token|] eqn:Et; [|exact E2].
  destruct (json_truthy token) eqn:E; [|exact E2].
  rewrite assign_keys; [exact E2|]. rewrite Et. exact E.
Qed.

End Steps.
End LoggingFacts.

Section LogSecurelyProperties.
Import Logging.

Variable string_entries : str -> list (str * json).

Local Abbreviation steps data :=
  (redact_token string_entries
     (redact_refresh_token (redact_access_token data))).

Lemma user_after_steps (data : js_object) :
  get "user" (steps data) = get "user" data.
Proof. apply LoggingFacts.get_steps; discriminate. Qed.

Lemma logSecurely_unfold (message : str) (data : js_object) :
  logSecurely string_entries message data
  = match get "user" data with
    | Some (JObj user) =>
        if value_truthy (lookup "email" user) then
          let user' := Some (JObj (assign "email" REDACTED user)) in
          {| console := (message, assign "user" user' (steps data));
             caller_data := assign "user" user' data |}
        else {| console := (message, steps data); caller_data := data |}
    | _ => {| console := (message, steps data); caller_data := data |}
    end.
Proof. unfold logSecurely. rewrite user_after_steps. reflexivity. Qed.

(** Whatever is logged has its secrets overwritten: a truthy [access_token]
    or [refresh_token] at the top is [[REDACTED]], a truthy [token] is an
    object whose [access_token] and [refresh_token] are [[REDACTED]], a truthy
    [user.email] is [[REDACTED]]; and the logged object has the keys of
    [data], in the same order. *)
Theorem logSecurely_redacts (message : str) (data : js_object) :
  let out := snd (console (logSecurely string_entries message data)) in
  (value_truthy (get "access_token" out) = true ->
   get "access_token" out = Some REDACTED)
  /\ (value_truthy (get "refresh_token" out) = true ->
      get "refresh_token" out = Some REDACTED)
  /\ (forall token,
        get "token" out = Some token -> json_truthy token = true ->
        exists members,
          token = JObj members
          /\ lookup "access_token" members = Some REDACTED
          /\ lookup "refresh_token" members = Some REDACTED)
  /\ (forall user,
        get "user" out = Some (JObj user) ->
        value_truthy (lookup "email" user) = true ->
        lookup "email" user = Some REDACTED)
  /\ map fst out = map fst data.
Proof.
  intros out.
  assert (Hother : forall key, key <> "user" -> get key out = get key (steps data)).
  { intros key Hk. unfold out. rewrite logSecurely_unfold.
    destruct (get "user" data) as [[| | | | |user]|]; try reflexivity.
    destruct (value_truthy (lookup "email" user)); [|reflexivity].
    simpl. apply LoggingFacts.get_assign_other. exact Hk. }
  split; [|split; [|split; [|split]]].
  - rewrite Hother by discriminate.
    rewrite LoggingFacts.get_redact_token, LoggingFacts.get_redact_refresh_token
      by discriminate.
    unfold redact_access_token.
    destruct (value_truthy (get "access_token" data)) eqn:E.
    + intros _. apply LoggingFacts.get_assign_same.
    + congruence.
  - rewrite Hother by discriminate.
    rewrite LoggingFacts.get_redact_token by discriminate.
    unfold redact_refresh_token.
    destruct (value_truthy (get "refresh_token" (redact_access_token data)))
      eqn:E.
    + intros _. apply LoggingFacts.get_assign_same.
    + congruence.
  - intros token. rewrite Hother by discriminate.
    unfold redact_token.
    destruct (get "token" (redact_refresh_token (redact_access_token data)))
      as [t|] eqn:Et.
    + destruct (json_truthy t) eqn:E.
      * rewrite LoggingFacts.get_assign_same. intros [= <-] _.
        eexists. split; [reflexivity|]. split.
        -- rewrite LoggingFacts.lookup_assign_other by discriminate.
           apply LoggingFacts.lookup_assign_same.
        -- apply LoggingFacts.lookup_assign_same.
      * rewrite Et. intros [= <-]. congruence.
    + rewrite Et. discriminate.
  - intros user. unfold out. rewrite logSecurely_unfold.
    destruct (get "user" data) as [[| | | | |user0]|] eqn:Eu;
      try (simpl; rewrite user_after_steps, Eu; discriminate).
    destruct (value_truthy (lookup "email" user0)) eqn:Ee; simpl.
    + rewrite LoggingFacts.get_assign_same. intros [= <-] _.
      apply LoggingFacts.lookup_assign_same.
    + rewrite user_after_steps, Eu. intros [= <-]. congruence.
  - unfold out. rewrite logSecurely_unfold.
    destruct (get "user" data) as [[| | | | |user0]|] eqn:Eu;
      try apply LoggingFacts.steps_keys.
    destruct (value_truthy (lookup "email" user0)); simpl;
      [|apply LoggingFacts.steps_keys].
    rewrite LoggingFacts.assign_keys; [apply LoggingFacts.steps_keys|].
    rewrite user_after_steps, Eu. reflexivity.
Qed.


(** Data without a truthy [access_token], [refresh_token], [token] or
    [user.email] is logged as it is, and is left as it is. *)
Theorem logSecurely_passes_plain_data (message : str) (data : js_object) :
  value_truthy (get "access_token" data) = false ->
  value_truthy (get "refresh_token" data) = false ->
  value_truthy (get "token" data) = false ->
  (forall user,
     get "user" data = Some (JObj user) ->
     value_truthy (lookup "email" user) = false) ->
  logSecurely string_entries message data
  = {| console := (message, data); caller_data := data |}.
Proof.
  intros Ha Hr Ht Hu.
  assert (Hs : steps data = data).
  { unfold redact_access_token. rewrite Ha.
    unfold redact_refresh_token. rewrite Hr.
    unfold redact_token. unfold value_truthy in Ht.
    destruct (get "token" data) as [t|]; [|reflexivity].
    rewrite Ht. reflexivity. }
  rewrite logSecurely_unfold, Hs.
  destruct (get "user" data) as [[| | | | |user0]|] eqn:Eu; try reflexivity.
  rewrite (Hu user0 eq_refl). reflexivity.
Qed.

End LogSecurelyProperties.

(** ** The two editions of [/api/oauth], run side by side *)

Section SuccessPath.

Variable cfg : config.
Variable wording : type_error -> str.
Variable code : query_value.
Variable w : world.

(** The calls after the exchange on the path of success: the identity
    lookup, unless the access token cannot be written after [Bearer]. *)
Lemma json_success_exact (tokenData : json) (s : str) :
  query_truthy code = true ->
  w (token_call cfg code) = Answer 200 tokenData ->
  scope_string tokenData = Some s ->
  missing_scopes (scope_list (REQUIRED_SCOPES cfg)) (scope_list s) = [] ->
  run w (OauthJson.handler cfg wording code)
  = if bearer_writable tokenData then
      (Returned
         (JsonBodies.ok tokenData
            match w (identity_call tokenData) with
            | Answer upstream identity =>
                if (upstream =? 200)%Z then identity else JNull
            | Failure _ => JNull
            end),
       [token_call cfg code; identity_call tokenData])
    else (Returned (JsonBodies.ok tokenData JNull), [token_call cfg code]).
Proof.
  intros Hc Hw Hs Hm.
  unfold OauthJson.handler. rewrite Hc. cbn [negb].
  unfold axios. cbn [bind try_catch run].
  fold (token_call cfg code). rewrite Hw.
  cbn [bind try_catch run resp_status resp_data Z.eqb Pos.eqb negb].
  destruct (scope_string_member _ _ Hs) as (scope & -> & Hsplit & ->).
  cbn [bind]. rewrite Hsplit. cbn [bind].
  fold (scope_list s). fold (scope_list (REQUIRED_SCOPES cfg)).
  fold (missing_scopes (scope_list (REQUIRED_SCOPES cfg)) (scope_list s)).
  rewrite Hm. cbn [length Nat.ltb Nat.leb].
  unfold bearer_template, bearer_writable, identity_call.
  destruct (access_token_of tokenData) as [token|].
  - destruct (to_string_throws token); [reflexivity|].
    cbn [negb bind try_catch run].
    destruct (w (Get (API_ENDPOINT ++ "/users/@me") (Some token)))
      as [st user | text]; cbn [bind try_catch run resp_status resp_data];
      [destruct (st =? 200)%Z|]; reflexivity.
  - cbn [bind try_catch run].
    destruct (w (Get (API_ENDPOINT ++ "/users/@me") None))
      as [st user | text]; cbn [bind try_catch run resp_status resp_data];
      [destruct (st =? 200)%Z|]; reflexivity.
Qed.

Lemma html_success_exact (tokenData : json) (s : str) :
  query_truthy code = true ->
  w (token_call cfg code) = Answer 200 tokenData ->
  scope_string tokenData = Some s ->
  missing_scopes (scope_list (REQUIRED_SCOPES cfg)) (scope_list s) = [] ->
  run w (OauthHtml.handler cfg code)
  = (Returned
       (res_send 200 (AuthorizationSuccessfulPage (SUCCESS_REDIRECT_URL cfg))),
     if bearer_writable tokenData
     then [token_call cfg code; identity_call tokenData]
     else [token_call cfg code]).
Proof.
  intros Hc Hw Hs Hm.
  unfold OauthHtml.handler. rewrite Hc. cbn [negb].
  unfold axios. cbn [bind try_catch run].
  fold (token_call cfg code). rewrite Hw.
  cbn [bind try_catch run resp_status resp_data Z.eqb Pos.eqb negb].
  destruct (scope_string_member _ _ Hs) as (scope & -> & Hsplit & ->).
  cbn [bind]. rewrite Hsplit. cbn [bind].
  fold (scope_list s). fold (scope_list (REQUIRED_SCOPES cfg)).
  fold (missing_scopes (scope_list (REQUIRED_SCOPES cfg)) (scope_list s)).
  rewrite Hm. cbn [length Nat.ltb Nat.leb].
  unfold bearer_template, bearer_writable, identity_call.
  destruct (access_token_of tokenData) as [token|].
  - destruct (to_string_throws token); [reflexivity|].
    cbn [negb bind try_catch run].
    destruct (w (Get (API_ENDPOINT ++ "/users/@me") (Some token)))
      as [st user | text]; cbn [bind try_catch run resp_status resp_data];
      [destruct (st =? 200)%Z; [destruct user|]|]; reflexivity.
  - cbn [bind try_catch run].
    destruct (w (Get (API_ENDPOINT ++ "/users/@me") None))
      as [st user | text]; cbn [bind try_catch run resp_status resp_data];
      [destruct (st =? 200)%Z; [destruct user|]|]; reflexivity.
Qed.

(** Both editions go the same way: the same outcome, for the same reason,
    with the same outbound calls. *)
Lemma both_flows :
  exists rj rh calls o,
    run w (OauthJson.handler cfg wording code) = (Returned rj, calls)
    /\ run w (OauthHtml.handler cfg code) = (Returned rh, calls)
    /\ outcome_of rj = Some o
    /\ outcome_of rh = Some o
    /\ path_of cfg code w o
    /\ (calls = [] /\ query_truthy code = false
        \/ calls = [token_call cfg code] /\ query_truthy code = true
        \/ exists tokenData,
             w (token_call cfg code) = Answer 200 tokenData
             /\ o = Success
             /\ bearer_writable tokenData = true
             /\ calls = [token_call cfg code; identity_call tokenData]).
Proof.
  destruct (query_truthy code) eqn:Hc.
  - destruct (w (token_call cfg code)) as [st d | text] eqn:Hw.
    + destruct (Z.eq_dec st 200) as [->|Hst].
      * destruct (scope_string d) as [s|] eqn:Hs.
        -- destruct (missing_scopes_nil_dec
                       (scope_list (REQUIRED_SCOPES cfg)) (scope_list s))
             as [Hm|Hm].
           ++ rewrite (json_success_exact d s Hc Hw Hs Hm).
              rewrite (html_success_exact d s Hc Hw Hs Hm).
              destruct (bearer_writable d) eqn:Hb.
              ** eexists _, _, _, Success.
                 repeat split; eauto.
                 right. right. exists d. auto.
              ** eexists _, _, _, Success. repeat split; eauto.
           ++ rewrite (JsonRuns.json_scopes_missing cfg wording code w d s
                         Hc Hw Hs Hm).
              rewrite (HtmlRuns.html_scopes_missing cfg code w d s Hc Hw Hs Hm).
              eexists _, _, _, ScopesMissing. repeat split; eauto.
        -- destruct (JsonRuns.json_unreadable_scope cfg wording code w d
                       Hc Hw Hs) as (e & ->).
           rewrite (HtmlRuns.html_unreadable_scope cfg code w d Hc Hw Hs).
           eexists _, _, _, UnexpectedError. repeat split; eauto.
      * rewrite (JsonRuns.json_refused cfg wording code w st d Hc Hw Hst).
        rewrite (HtmlRuns.html_refused cfg code w st d Hc Hw Hst).
        eexists _, _, _, ExchangeFailed. repeat split; eauto.
    + rewrite (JsonRuns.json_transport_failure cfg wording code w text Hc Hw).
      rewrite (HtmlRuns.html_transport_failure cfg code w text Hc Hw).
      eexists _, _, _, UnexpectedError. repeat split; eauto.
  - rewrite (JsonRuns.json_no_code cfg wording code w Hc).
    rewrite (HtmlRuns.html_no_code cfg code w Hc).
    destruct (misconfigured cfg) eqn:Hm.
    + eexists _, _, _, ConfigurationError. repeat split; eauto.
    + eexists _, _, _, RedirectToAuthorize. repeat split; eauto.
Qed.

End SuccessPath.

(** Whatever the request and whatever the provider does, neither edition
    throws: each returns one answer, both answers stand for the same
    outcome, reached for the reason [path_of] gives, and both editions made
    the same outbound calls. *)
Theorem editions_agree
  (cfg : config) (wording : type_error -> str) (code : query_value)
  (w : world) :
  exists rj rh calls o,
    run w (OauthJson.handler cfg wording code) = (Returned rj, calls)
    /\ run w (OauthHtml.handler cfg code) = (Returned rh, calls)
    /\ outcome_of rj = Some o
    /\ outcome_of rh = Some o
    /\ path_of cfg code w o.
Proof.
  destruct (both_flows cfg wording code w)
    as (rj & rh & calls & o & Ej & Eh & Oj & Oh & Hp & _).
  exists rj, rh, calls, o. auto.
Qed.

(** The outbound calls of a run: none without a code; with a code the
    exchange first, and after it at most the identity lookup, which is made
    only on the way to success, with the access token of the token response. *)
Theorem outbound_calls_discipline
  (cfg : config) (wording : type_error -> str) (code : query_value)
  (w : world) :
  exists r calls o,
    run w (OauthJson.handler cfg wording code) = (Returned r, calls)
    /\ outcome_of r = Some o
    /\ (query_truthy code = false -> calls = [])
    /\ (query_truthy code = true ->
        calls = [token_call cfg code]
        \/ exists tokenData,
             w (token_call cfg code) = Answer 200 tokenData
             /\ o = Success
             /\ calls = [token_call cfg code; identity_call tokenData]).
Proof.
  destruct (both_flows cfg wording code w)
    as (rj & rh & calls & o & Ej & Eh & Oj & Oh & Hp & Hcalls).
  exists rj, calls, o. split; [exact Ej|]. split; [exact Oj|].
  destruct Hcalls as [[-> Hc] | [[-> Hc] | (d & Hw & -> & Hb & ->)]].
  - split; [reflexivity | congruence].
  - split; [congruence | intros _; left; reflexivity].
  - split.
    + intros Hc. simpl in Hp. destruct Hp. congruence.
    + intros _. right. exists d. auto.
Qed.

Lemma outbound_calls_discipline_witness :
  exists r calls o,
    run (provider (Answer 200 (token_of "identify applications.commands gdm.join"))
           (Answer 200 sample_user))
      (OauthJson.handler sample_config sample_wording QAbsent)
    = (Returned r, calls)
    /\ outcome_of r = Some o
    /\ calls = [].
Proof.
  destruct (outbound_calls_discipline sample_config sample_wording QAbsent
              (provider
                 (Answer 200 (token_of "identify applications.commands gdm.join"))
                 (Answer 200 sample_user)))
    as (r & calls & o & E & Ho & Hnone & _).
  exists r, calls, o. split; [exact E|]. split; [exact Ho|].
  apply Hnone. reflexivity.
Defined.

(** A token response answered 200 that is not a token object: the body
    [null], or a [scope] that is truthy and not a string. Reading the scopes
    throws a [TypeError] that the outer [catch] turns into the 500 of an
    unexpected error; the identity lookup is not made. *)
Theorem unreadable_token_response
  (cfg : config) (wording : type_error -> str) (code : query_value)
  (w : world) (tokenData : json) :
  query_truthy code = true ->
  w (token_call cfg code) = Answer 200 tokenData ->
  tokenData = JNull
  \/ (exists members scope,
        tokenData = JObj members
        /\ lookup "scope" members = Some scope
        /\ json_truthy scope = true
        /\ forall s, scope <> JStr s) ->
  run w (OauthJson.handler cfg wording code)
  = (Returned
       (JsonBodies.unexpected_error
          (wording match tokenData with
                   | JNull => ReadOfNull "scope"
                   | _ => NotAFunction "split"
                   end)),
     [token_call cfg code])
  /\ run w (OauthHtml.handler cfg code)
     = (Returned (res_send 500 (UnexpectedErrorPage (buildAuthorizeUrl cfg))),
        [token_call cfg code]).
Proof.
  intros Hc Hw Hbad. split.
  - unfold OauthJson.handler. rewrite Hc. cbn [negb].
    unfold axios. cbn [bind try_catch run].
    fold (token_call cfg code). rewrite Hw.
    cbn [bind try_catch run resp_status resp_data Z.eqb Pos.eqb negb].
    destruct Hbad as [-> | (members & scope & -> & Hl & Ht & Hs)].
    + reflexivity.
    + cbn [member bind]. rewrite Hl. unfold or_empty. rewrite Ht.
      destruct scope; try reflexivity. destruct (Hs s eq_refl).
  - apply (HtmlRuns.html_unreadable_scope cfg code w tokenData);
      try assumption.
    destruct Hbad as [-> | (members & scope & -> & Hl & Ht & Hs)].
    + reflexivity.
    + simpl. rewrite Hl. unfold or_empty. rewrite Ht.
      destruct scope; try reflexivity. destruct (Hs s eq_refl).
Qed.

(** The provider answers the exchange with 200 and the body [null]. *)
Lemma unreadable_token_response_witness :
  run (provider (Answer 200 JNull) (Failure "unused"))
    (OauthJson.handler sample_config sample_wording (QString "code123"))
  = (Returned
       (JsonBodies.unexpected_error
          "Cannot read properties of null (reading 'scope')"),
     [token_call sample_config (QString "code123")]).
Proof.
  apply (unreadable_token_response sample_config sample_wording
           (QString "code123")
           (provider (Answer 200 JNull) (Failure "unused")) JNull).
  - reflexivity.
  - reflexivity.
  - left. reflexivity.
Defined.

(** When the exchange is answered 200, no required scope is missing and the
    identity lookup is answered 200, the answer of [api/oauth.js] carries the
    whole token response and the identity as the provider sent them, after
    exactly the two calls. *)
Theorem success_carries_token_and_identity
  (cfg : config) (wording : type_error -> str) (code : query_value)
  (w : world) (tokenData : json) (s : str) (identity : json) :
  query_truthy code = true ->
  w (token_call cfg code) = Answer 200 tokenData ->
  scope_string tokenData = Some s ->
  missing_scopes (scope_list (REQUIRED_SCOPES cfg)) (scope_list s) = [] ->
  bearer_writable tokenData = true ->
  w (identity_call tokenData) = Answer 200 identity ->
  run w (OauthJson.handler cfg wording code)
  = (Returned (JsonBodies.ok tokenData identity),
     [token_call cfg code; identity_call tokenData]).
Proof.
  intros Hc Hw Hs Hm Hb Hi.
  rewrite (json_success_exact cfg wording code w tokenData s Hc Hw Hs Hm).
  rewrite Hb, Hi. reflexivity.
Qed.

Lemma success_carries_token_and_identity_witness :
  let scopes := "identify applications.commands gdm.join" in
  run (provider (Answer 200 (token_of scopes)) (Answer 200 sample_user))
    (OauthJson.handler sample_config sample_wording (QString "code123"))
  = (Returned (JsonBodies.ok (token_of scopes) sample_user),
     [token_call sample_config (QString "code123");
      identity_call (token_of scopes)]).
Proof.
  intros scopes.
  apply (success_carries_token_and_identity sample_config sample_wording
           (QString "code123")
           (provider (Answer 200 (token_of scopes)) (Answer 200 sample_user))
           (token_of scopes) scopes sample_user);
    reflexivity.
Defined.

(** An access token that cannot be written after [Bearer] (an object with a
    member named [toString]): the identity lookup is not made, and the answer
    is still the success, with [user: null]. *)
Theorem unwritable_access_token_skips_the_lookup
  (cfg : config) (wording : type_error -> str) (code : query_value)
  (w : world) (tokenData : json) (s : str) :
  query_truthy code = true ->
  w (token_call cfg code) = Answer 200 tokenData ->
  scope_string tokenData = Some s ->
  missing_scopes (scope_list (REQUIRED_SCOPES cfg)) (scope_list s) = [] ->
  bearer_writable tokenData = false ->
  run w (OauthJson.handler cfg wording code)
  = (Returned (JsonBodies.ok tokenData JNull), [token_call cfg code]).
Proof.
  intros Hc Hw Hs Hm Hb.
  rewrite (json_success_exact cfg wording code w tokenData s Hc Hw Hs Hm).
  rewrite Hb. reflexivity.
Qed.

Lemma unwritable_access_token_witness :
  let tokenData :=
    JObj [ ("access_token", JObj [("toString", JNull)]);
           ("scope", JStr "identify applications.commands gdm.join") ] in
  run (provider (Answer 200 tokenData) (Answer 200 sample_user))
    (OauthJson.handler sample_config sample_wording (QString "code123"))
  = (Returned (JsonBodies.ok tokenData JNull),
     [token_call sample_config (QString "code123")]).
Proof.
  intros tokenData.
  apply (unwritable_access_token_skips_the_lookup sample_config sample_wording
           (QString "code123")
           (provider (Answer 200 tokenData) (Answer 200 sample_user))
           tokenData "identify applications.commands gdm.join");
    reflexivity.
Defined.

(** ** The pages of the HTML edition *)

Lemma html_shapes (cfg : config) (code : query_value) (w : world) :
  exists r calls,
    run w (OauthHtml.handler cfg code) = (Returned r, calls)
    /\ (r = res_redirect 302 (buildAuthorizeUrl cfg)
        \/ r = res_send 500 ConfigurationErrorPage
        \/ r = res_send 500 (AuthorizationFailedPage (buildAuthorizeUrl cfg))
        \/ (exists missing,
              r = res_send 400
                    (MissingPermissionsPage (OauthHtml.list_items missing)
                       (buildAuthorizeUrl cfg)))
        \/ r = res_send 200
                 (AuthorizationSuccessfulPage (SUCCESS_REDIRECT_URL cfg))
        \/ r = res_send 500 (UnexpectedErrorPage (buildAuthorizeUrl cfg))).
Proof.
  destruct (query_truthy code) eqn:Hc.
  - destruct (w (token_call cfg code)) as [st d | text] eqn:Hw.
    + destruct (Z.eq_dec st 200) as [->|Hst].
      * destruct (scope_string d) as [s|] eqn:Hs.
        -- destruct (missing_scopes_nil_dec
                       (scope_list (REQUIRED_SCOPES cfg)) (scope_list s))
             as [Hm|Hm].
           ++ rewrite (html_success_exact cfg code w d s Hc Hw Hs Hm).
              eexists _, _. split; [reflexivity|]. tauto.
           ++ rewrite (HtmlRuns.html_scopes_missing cfg code w d s Hc Hw Hs Hm).
              eexists _, _. split; [reflexivity|].
              right. right. right. left. eexists. reflexivity.
        -- rewrite (HtmlRuns.html_unreadable_scope cfg code w d Hc Hw Hs).
           eexists _, _. split; [reflexivity|]. tauto.
      * rewrite (HtmlRuns.html_refused cfg code w st d Hc Hw Hst).
        eexists _, _. split; [reflexivity|]. tauto.
    + rewrite (HtmlRuns.html_transport_failure cfg code w text Hc Hw).
      eexists _, _. split; [reflexivity|]. tauto.
  - rewrite (HtmlRuns.html_no_code cfg code w Hc).
    destruct (misconfigured cfg); eexists _, _; (split; [reflexivity|]); tauto.
Qed.

(** The answer of the HTML edition is a function of the configuration and
    of the outcome: two requests that end in the same outcome, other than
    missing scopes, get the very same answer, whatever the code, the token
    response, the identity or the text of an exception were. *)
Theorem html_answer_depends_on_the_outcome_only
  (cfg : config) (code1 code2 : query_value) (w1 w2 : world)
  (r1 r2 : response) (calls1 calls2 : list call) (o : outcome) :
  run w1 (OauthHtml.handler cfg code1) = (Returned r1, calls1) ->
  run w2 (OauthHtml.handler cfg code2) = (Returned r2, calls2) ->
  outcome_of r1 = Some o ->
  outcome_of r2 = Some o ->
  o <> ScopesMissing ->
  r1 = r2.
Proof.
  intros E1 E2 O1 O2 Ho.
  destruct (html_shapes cfg code1 w1) as (r1' & c1' & E1' & S1).
  destruct (html_shapes cfg code2 w2) as (r2' & c2' & E2' & S2).
  rewrite E1 in E1'. rewrite E2 in E2'.
  injection E1' as <- _. injection E2' as <- _.
  destruct S1 as [-> | [-> | [-> | [(m1 & ->) | [-> | ->]]]]];
    destruct S2 as [-> | [-> | [-> | [(m2 & ->) | [-> | ->]]]]];
    unfold outcome_of, res_redirect, res_send in O1, O2;
    simpl in O1, O2; congruence.
Qed.

(** A refused connection and a [null] token response get the same page. *)
Lemma html_answer_depends_on_the_outcome_only_witness :
  match
    fst (run (provider (Failure "connect ECONNREFUSED 10.0.0.7:443")
                (Failure "unused"))
           (OauthHtml.handler sample_config (QString "code123"))),
    fst (run (provider (Answer 200 JNull) (Failure "unused"))
           (OauthHtml.handler sample_config (QString "another")))
  with
  | Returned r1, Returned r2 => r1 = r2
  | _, _ => False
  end.
Proof.
  change (res_send 500 (UnexpectedErrorPage (buildAuthorizeUrl sample_config))
          = res_send 500 (UnexpectedErrorPage (buildAuthorizeUrl sample_config))).
  apply (html_answer_depends_on_the_outcome_only sample_config
           (QString "code123") (QString "another")
           (provider (Failure "connect ECONNREFUSED 10.0.0.7:443")
              (Failure "unused"))
           (provider (Answer 200 JNull) (Failure "unused"))
           _ _
           [token_call sample_config (QString "code123")]
           [token_call sample_config (QString "another")]
           UnexpectedError).
  - reflexivity.
  - reflexivity.
  - reflexivity.
  - reflexivity.
  - discriminate.
Defined.

(** Granted [a b] of required [a b c]: the page lists [c]. *)
Lemma html_missing_scopes_page_witness :
  run (provider (Answer 200 (token_of "a b")) (Failure "unused"))
    (OauthHtml.handler abc_config (QString "code123"))
  = (Returned
       (res_send 400
          (MissingPermissionsPage "<li>c</li>" (buildAuthorizeUrl abc_config))),
     [token_call abc_config (QString "code123")]).
Proof.
  apply (html_missing_scopes_page abc_config (QString "code123")
           (provider (Answer 200 (token_of "a b")) (Failure "unused"))
           (token_of "a b") "a b").
  - reflexivity.
  - reflexivity.
  - reflexivity.
  - discriminate.
Defined.

(** ** The bare exchange *)

Lemma bare_exchange_without_code_witness :
  run (provider (Failure "unused") (Failure "unused"))
    (Exchange.handler no_secret_config QAbsent)
  = (Returned (res_json 400 (JObj [("error", JStr "Missing code")])), []).
Proof.
  apply (bare_exchange_without_code no_secret_config QAbsent
           (provider (Failure "unused") (Failure "unused"))).
  reflexivity.
Defined.

(** A token endpoint answering 204 with an empty body. *)
Lemma bare_exchange_step_witness :
  run (provider (Answer 204 (JStr "")) (Failure "unused"))
    (Exchange.handler sample_config (QString "code123"))
  = (Returned (res_json 200 (JStr "")),
     [token_call sample_config (QString "code123")]).
Proof.
  apply (bare_exchange_step sample_config (QString "code123")
           (provider (Answer 204 (JStr "")) (Failure "unused"))).
  reflexivity.
Defined.

(** ** The authorize URL, read back *)

(** The query of the authorize URL has four parameters, in this order: the
    client id and the redirect URI as configured (the word [undefined] when
    unset), [response_type=code], and the required scopes with a plus sign
    in the place of every space. *)
Theorem authorize_url_reads_back (cfg : config) :
  UrlEncoded.searchParams (buildAuthorizeUrl cfg)
  = [ ("client_id", env_to_string (CLIENT_ID cfg));
      ("redirect_uri", env_to_string (REDIRECT_URI cfg));
      ("response_type", "code");
      ("scope", plus_for_space (REQUIRED_SCOPES cfg)) ].
Proof.
  rewrite UrlEncodedFacts.searchParams_buildAuthorizeUrl.
  unfold plus_for_space. rewrite <- JsStringFacts.join_split_replace.
  reflexivity.
Qed.

(** Two configurations get the same authorize URL exactly when they agree on
    what the URL shows of them: the client id and the redirect URI as written
    (so an unset one and the word [undefined] are not told apart), and the
    required scopes up to spaces against plus signs. *)
Theorem authorize_url_tells_settings_apart (cfg1 cfg2 : config) :
  buildAuthorizeUrl cfg1 = buildAuthorizeUrl cfg2
  <-> env_to_string (CLIENT_ID cfg1) = env_to_string (CLIENT_ID cfg2)
      /\ env_to_string (REDIRECT_URI cfg1) = env_to_string (REDIRECT_URI cfg2)
      /\ plus_for_space (REQUIRED_SCOPES cfg1)
         = plus_for_space (REQUIRED_SCOPES cfg2).
Proof.
  unfold plus_for_space. rewrite <- !JsStringFacts.join_split_replace.
  split.
  - intros E. apply (f_equal UrlEncoded.searchParams) in E.
    rewrite !UrlEncodedFacts.searchParams_buildAuthorizeUrl in E.
    inversion E. auto.
  - intros (Hid & Huri & Hscope). unfold buildAuthorizeUrl.
    rewrite Hid, Huri, Hscope. reflexivity.
Qed.

(** ** Scope lists *)

Lemma split_app_any (sep : ascii) (a b : str) :
  JsString.split sep (a ++ sep :: b)
  = JsString.split sep a ++ JsString.split sep b.
Proof.
  induction a as [|c a IH]; simpl.
  - rewrite Ascii.eqb_refl. reflexivity.
  - destruct (Ascii.eqb c sep).
    + rewrite IH. reflexivity.
    + rewrite IH. pose proof (JsStringFacts.split_not_nil sep a) as Hn.
      destruct (JsString.split sep a); [congruence | reflexivity].
Qed.

(** The scopes of two strings put together with a space are the scopes of
    the first followed by those of the second; so a space in front or at the
    end adds no scope. *)
Theorem scope_list_of_joined_strings (a b : str) :
  scope_list (a ++ " " ++ b) = scope_list a ++ scope_list b
  /\ scope_list (" " ++ a) = scope_list a
  /\ scope_list (a ++ " ") = scope_list a.
Proof.
  assert (H : forall x y, scope_list (x ++ " "%char :: y)
                          = scope_list x ++ scope_list y).
  { intros x y. unfold scope_list. rewrite split_app_any.
    apply filter_app. }
  split; [apply H|]. split.
  - apply (H [] a).
  - change (a ++ " ") with (a ++ " "%char :: []). rewrite H.
    apply app_nil_r.
Qed.

(** Scope validation passes exactly when every required scope is among the
    granted ones. *)
Theorem scope_validation_passes_iff (required granted : list str) :
  missing_scopes required granted = []
  <-> forall r, In r required -> In r granted.
Proof.
  split.
  - intros E r Hr.
    destruct (JsString.includes granted r) eqn:Hi.
    + apply JsStringFacts.includes_In. exact Hi.
    + assert (Hin : In r (missing_scopes required granted)).
      { apply missing_scopes_spec. split; [exact Hr|].
        apply JsStringFacts.includes_false. exact Hi. }
      rewrite E in Hin. destruct Hin.
  - intros H. destruct (missing_scopes required granted) as [|x l] eqn:E;
      [reflexivity|].
    assert (Hin : In x (missing_scopes required granted))
      by (rewrite E; left; reflexivity).
    apply missing_scopes_spec in Hin. destruct Hin as [Hr Hg].
    destruct (Hg (H x Hr)).
Qed.

(** The missing scopes depend on which scopes are granted, not on their
    order or on repetitions in the token response. *)
Theorem missing_scopes_ignores_order_of_granted
  (required granted1 granted2 : list str) :
  (forall x, In x granted1 <-> In x granted2) ->
  missing_scopes required granted1 = missing_scopes required granted2.
Proof.
  intros H. unfold missing_scopes. apply filter_ext. intros r. f_equal.
  destruct (JsString.includes granted2 r) eqn:E.
  - apply JsStringFacts.includes_In. apply H.
    apply JsStringFacts.includes_In. exact E.
  - apply JsStringFacts.includes_false. intros Hin.
    apply JsStringFacts.includes_false in E. apply E, H, Hin.
Qed.

Lemma missing_scopes_ignores_order_witness :
  missing_scopes (scope_list "a b c") (scope_list "b a")
  = missing_scopes (scope_list "a b c") (scope_list "a  b b").
Proof.
  apply (missing_scopes_ignores_order_of_granted
           (scope_list "a b c") (scope_list "b a") (scope_list "a  b b")).
  intros x. simpl. tauto.
Defined.

(** ** The required scopes as loaded *)

Module TrimFacts.
Import JsString.

Lemma strip_skipn (measure : str -> nat) (fuel : nat) (s : str) :
  exists n, strip measure fuel s = skipn n s.
Proof.
  revert s. induction fuel as [|fuel IH]; intros s; cbn [strip].
  - exists 0. reflexivity.
  - destruct (measure s) as [|k]; [exists 0; reflexivity|].
    destruct (IH (skipn (S k) s)) as (n & ->).
    exists (S k + n). rewrite skipn_skipn. f_equal. lia.
Qed.

Lemma strip_done (measure : str -> nat) (fuel : nat) (s : str) :
  measure [] = 0 -> length s <= fuel -> measure (strip measure fuel s) = 0.
Proof.
  intros Hnil. revert s.
  induction fuel as [|fuel IH]; intros s Hlen; cbn [strip].
  - destruct s; [exact Hnil | simpl in Hlen; lia].
  - destruct (measure s) as [|k] eqn:E; [exact E|].
    apply IH. destruct s as [|c s]; [simpl; lia|].
    rewrite length_skipn. simpl in *. lia.
Qed.

Ltac each_byte c := destruct c as [[] [] [] [] [] [] [] []].

(** A white space character in front stays one when more text follows. *)
Lemma ws_prefix_app (p q : str) :
  ws_prefix p <> 0 -> ws_prefix (p ++ q) = ws_prefix p.
Proof.
  unfold ws_prefix.
  destruct p as [|a p]; [simpl; congruence|].
  each_byte a; try (simpl; intros; first [congruence | reflexivity]);
    (destruct p as [|b p]; [simpl; congruence|]);
    each_byte b; try (simpl; intros; first [congruence | reflexivity]);
    (destruct p as [|c p]; [simpl; congruence|]);
    each_byte c; simpl; intros; first [congruence | reflexivity].
Qed.

Lemma trimStart_done (s : str) : ws_prefix (trimStart s) = 0.
Proof. apply strip_done; [reflexivity | apply Nat.le_refl]. Qed.

Lemma trim_is_prefix (s : str) :
  exists rest, trimStart s = trim s ++ rest.
Proof.
  unfold trim, trimEnd. set (t := trimStart s).
  destruct (strip_skipn ws_suffix (length t) (rev t)) as (n & ->).
  rewrite skipn_rev, rev_involutive.
  exists (skipn (length t - n) t). symmetry. apply firstn_skipn.
Qed.

Lemma trim_front (s : str) : ws_prefix (trim s) = 0.
Proof.
  destruct (trim_is_prefix s) as (rest & E).
  destruct (ws_prefix (trim s)) as [|k] eqn:Hk; [reflexivity|].
  pose proof (trimStart_done s) as H0. rewrite E in H0.
  rewrite ws_prefix_app in H0 by congruence. congruence.
Qed.

Lemma trim_back (s : str) : ws_suffix (rev (trim s)) = 0.
Proof.
  unfold trim, trimEnd. rewrite rev_involutive.
  apply strip_done; [reflexivity|]. rewrite length_rev. apply Nat.le_refl.
Qed.

End TrimFacts.

(** However the environment is set, the string of required scopes never
    begins and never ends with a white space character; in particular not
    with a space. *)
Theorem required_scopes_are_trimmed (env : process_env) :
  let s := REQUIRED_SCOPES (load_config env) in
  JsString.ws_prefix s = 0
  /\ JsString.ws_suffix (rev s) = 0
  /\ (forall rest, s <> " "%char :: rest)
  /\ (forall front, s <> front ++ " ").
Proof.
  intros s. unfold s, load_config. cbn [REQUIRED_SCOPES].
  set (raw := env_or (env_REQUIRED_SCOPES env)
                "identify applications.commands gdm.join").
  pose proof (TrimFacts.trim_front raw) as Hf.
  pose proof (TrimFacts.trim_back raw) as Hb.
  split; [exact Hf|]. split; [exact Hb|]. split.
  - intros rest E. rewrite E in Hf. discriminate.
  - intros front E. rewrite E in Hb.
    rewrite rev_app_distr in Hb. discriminate.
Qed.

(** With [REQUIRED_SCOPES] unset or empty, the three default scopes are
    required. *)
Theorem required_scopes_default (env : process_env) :
  env_truthy (env_REQUIRED_SCOPES env) = false ->
  REQUIRED_SCOPES (load_config env) = "identify applications.commands gdm.join"
  /\ scope_list (REQUIRED_SCOPES (load_config env))
     = ["identify"; "applications.commands"; "gdm.join"].
Proof.
  intros H. unfold load_config. cbn [REQUIRED_SCOPES].
  assert (E : env_or (env_REQUIRED_SCOPES env)
                "identify applications.commands gdm.join"
              = "identify applications.commands gdm.join").
  { unfold env_or. unfold env_truthy in H.
    destruct (env_REQUIRED_SCOPES env) as [v|]; [|reflexivity].
    rewrite H. reflexivity. }
  rewrite E. split; reflexivity.
Qed.

Lemma required_scopes_default_witness :
  REQUIRED_SCOPES sample_config = "identify applications.commands gdm.join"
  /\ scope_list (REQUIRED_SCOPES sample_config)
     = ["identify"; "applications.commands"; "gdm.join"].
Proof.
  apply (required_scopes_default sample_env). reflexivity.
Defined.

(** ** [logSecurely] on sample data *)

Lemma logSecurely_redacts_witness :
  Logging.get "access_token"
    (snd (Logging.console
            (Logging.logSecurely ascii_entries "OAuth" secret_log)))
  = Some Logging.REDACTED.
Proof.
  apply (proj1 (logSecurely_redacts ascii_entries "OAuth" secret_log)).
  reflexivity.
Defined.


Lemma logSecurely_passes_plain_data_witness :
  Logging.logSecurely ascii_entries "Discord token exchange failed:"
    refusal_log
  = {| Logging.console := ("Discord token exchange failed:", refusal_log);
       Logging.caller_data := refusal_log |}.
Proof.
  apply (logSecurely_passes_plain_data ascii_entries
           "Discord token exchange failed:" refusal_log).
  - reflexivity.
  - reflexivity.
  - reflexivity.
  - intros user. discriminate.
Defined.
